(** * DonutChart: a shallow embedding of the donut [Chart] component and of
      [TooltipContent], with the properties claimed of them.

    Conventions of the embedding.
    - A JavaScript number is an exact rational ([Q]): no rounding, no [NaN],
      no infinities.  [Math.PI] is the rational value of its IEEE double.
      Equations between computed numbers are stated with [==] ([Qeq]).
    - An array is a [list]; an array index is a [nat]; [a[i]] is [nth_error].
    - [undefined] is [None]; a property of type [T | null] is an [option].
    - A render is a function from props, hook results and component state to
      the element tree; a thrown [TypeError] is a value of [Completion]. *)

From Stdlib Require Import QArith Qminmax Qabs Lqa.
From Stdlib Require Import ZArith Lia Bool List String Ascii.
From Stdlib Require Import DecimalString DecimalNat.
Import ListNotations.

Local Open Scope Q_scope.

(* ------------------------------------------------------------------ *)
(** ** Numbers *)

Module Js.

(** [Math.PI], the double 0x400921FB54442D18. *)
Definition Math_PI : Q := 884279719003555 # 281474976710656.

(** [Math.min] and [Math.max] on two arguments. *)
Definition Math_min (a b : Q) : Q := Qmin a b.
Definition Math_max (a b : Q) : Q := Qmax a b.
Definition Math_abs (a : Q) : Q := Qabs a.

(** [a > b] on numbers. *)
Definition gt (a b : Q) : bool := if Qlt_le_dec b a then true else false.
Definition lt (a b : Q) : bool := gt b a.

(** Truthiness of a number: every number but [0] is truthy. *)
Definition truthy (a : Q) : bool := negb (Qeq_bool a 0).

(** Unary plus on a [number | null]: [+null] is [0]. *)
Definition toNumber (v : option Q) : Q :=
  match v with
  | Some q => q
  | None => 0
  end.

(** [String(n)] for an array index. *)
Definition indexToString (n : nat) : string :=
  NilZero.string_of_uint (Nat.to_uint n).

(** Completion of an evaluation: a value, or a thrown error. *)
Inductive Error : Type :=
| TypeError (msg : string).

Inductive Completion (A : Type) : Type :=
| Normal (a : A)
| Throw (e : Error).
Arguments Normal {A} a.
Arguments Throw {A} e.

Definition bind {A B : Type} (c : Completion A) (k : A -> Completion B)
  : Completion B :=
  match c with
  | Normal a => k a
  | Throw e => Throw e
  end.

(** [xs.map((x, index) => f(x, index))] when [f] may throw: the first
    exception aborts the whole map. *)
Fixpoint mapi_from {A B : Type} (f : A -> nat -> Completion B)
         (i : nat) (xs : list A) : Completion (list B) :=
  match xs with
  | [] => Normal []
  | x :: rest =>
      bind (f x i) (fun y =>
      bind (mapi_from f (S i) rest) (fun ys =>
      Normal (y :: ys)))
  end.

Definition mapi {A B : Type} (f : A -> nat -> Completion B) (xs : list A)
  : Completion (list B) :=
  mapi_from f 0 xs.

End Js.

Notation "x <- c ;; k" := (Js.bind c (fun x => k))
  (at level 61, c at next level, right associativity).

(* ------------------------------------------------------------------ *)
(** ** Data model ([DataPoint], [DataSeries]) *)

(** [key: number | string]. *)
Inductive Key : Type :=
| KeyString (s : string)
| KeyNumber (n : Q).

(** [DataPoint]: [{key: number | string; value: number | null}]. *)
Record DataPoint : Type := mkDataPoint {
  key : Key;
  value : option Q
}.

(** [Color = string | GradientStop[]]. *)
Record GradientStop : Type := mkGradientStop {
  offset : Q;
  stop_color : string
}.

Inductive Color : Type :=
| Solid (c : string)
| Gradient (stops : list GradientStop).

(** [DataSeries]: the fields the donut chart reads.  [name] and [color] are
    optional properties. *)
Record DataSeries : Type := mkDataSeries {
  name : option string;
  data : list DataPoint;
  color : option Color
}.

(* ------------------------------------------------------------------ *)
(** ** The pie generator of d3-shape *)

Module D3.

(** d3's [tau]. *)
Definition tau : Q := 2 * Js.Math_PI.

(** One entry of the array a pie generator returns. *)
Record PieArcDatum (D : Type) : Type := mkPieArcDatum {
  arc_data : D;
  arc_index : nat;
  arc_value : Q;
  startAngle : Q;
  endAngle : Q;
  padAngle : Q
}.
Arguments mkPieArcDatum {D}.
Arguments arc_data {D}.
Arguments arc_index {D}.
Arguments arc_value {D}.
Arguments startAngle {D}.
Arguments endAngle {D}.
Arguments padAngle {D}.

Section Generator.

Context {D : Type}.

(** The generator's configuration.  [pie()] starts from
    [startAngle = 0], [endAngle = tau], [padAngle = 0]; [.value(f)]
    replaces the accessor; [.sort(null)] clears both comparators, so the
    index array stays the identity and the sorting branch is not taken. *)
Variable full : Q.
Variable cfg_startAngle cfg_endAngle cfg_padAngle : Q.
Variable valueOf : D -> Q.

(** First loop: [if ((v = arcs[i] = +value(data[i])) > 0) sum += v]. *)
Definition positive_sum (ds : list D) : Q :=
  fold_left (fun sum d => if Js.gt (valueOf d) 0 then sum + valueOf d else sum)
            ds 0.

(** Second loop, from index [i] and running angle [a0]:
    [a1 = a0 + (v > 0 ? v * k : 0) + pa]. *)
Fixpoint arcs_from (k pa p : Q) (a0 : Q) (i : nat) (ds : list D)
  : list (PieArcDatum D) :=
  match ds with
  | [] => []
  | d :: rest =>
      let v := valueOf d in
      let a1 := a0 + (if Js.gt v 0 then v * k else 0) + pa in
      mkPieArcDatum d i v a0 a1 p :: arcs_from k pa p a1 (S i) rest
  end.

Definition layout (ds : list D) : list (PieArcDatum D) :=
  let n := inject_Z (Z.of_nat (List.length ds)) in
  let sum := positive_sum ds in
  let a0 := cfg_startAngle in
  let da := Js.Math_min full (Js.Math_max (- full) (cfg_endAngle - a0)) in
  let p := Js.Math_min (Js.Math_abs da / n) cfg_padAngle in
  let pa := p * (if Js.lt da 0 then -1 else 1) in
  let k := if Js.truthy sum then (da - n * pa) / sum else 0 in
  arcs_from k pa p a0 0 ds.

End Generator.

(** Modelled from the spec: the pie generator belongs to the d3-shape
    package, whose code is not among the sources.  The spec calls it the
    pie-angle computation, a pure function from a data series to angles;
    the definition follows the generator's published algorithm, configured
    as the chart configures it: [pie<DataPoint>().value(f).sort(null)]. *)
Definition pie {D : Type} (valueOf : D -> Q) : list D -> list (PieArcDatum D) :=
  layout tau 0 tau 0 valueOf.

End D3.

(* ------------------------------------------------------------------ *)
(** ** Chart.tsx: module constants and the geometry part of the render *)

Definition FULL_CIRCLE : Q := Js.Math_PI * 2.
Definition RADIUS_PADDING : Q := 20.
Definition SMALL_CHART_HEIGHT_THRESHOLD : Q := 150.

(** [data.reduce((prev, {data}) => prev.concat(data), [])]. *)
Definition flattenPoints (series : list DataSeries) : list DataPoint :=
  fold_left (fun prev s => prev ++ data s) series [].

(** The number the generator reads off a point: the accessor
    [({value}) => value!] returns the point's [value], and the generator
    applies unary plus to it. *)
Definition valueNumber (d : DataPoint) : Q := Js.toNumber (value d).

(** [pie<DataPoint>().value(({value}) => value!).sort(null)]. *)
Definition createPie : list DataPoint -> list (D3.PieArcDatum DataPoint) :=
  D3.pie valueNumber.

(** [points.every(({value}) => value === 0)]: [null] is not [=== 0]. *)
Definition isEveryValueZero (points : list DataPoint) : bool :=
  forallb (fun d => match value d with
                    | Some v => Qeq_bool v 0
                    | None => false
                    end) points.

(** [points.reduce((acc, {value}) => (value ?? 0) + acc, 0)], in exact
    arithmetic: the total of the values, against which the proportions of the
    pie are stated.  Nothing below states what the reduce returns once the
    additions round. *)
Definition sumOfValues (points : list DataPoint) : Q :=
  fold_left (fun acc d => Js.toNumber (value d) + acc) points 0.

(** *** Vocabulary for stating the geometry *)

(** The angular interval of a slice. *)
Definition angles {D : Type} (a : D3.PieArcDatum D) : Q * Q :=
  (D3.startAngle a, D3.endAngle a).

(** [partitions lo spans hi]: the intervals [spans], in order, tile
    [[lo, hi]]: the first starts at [lo], each starts where the one before
    ends, none is reversed, and the last ends at [hi]. *)
Fixpoint partitions (lo : Q) (spans : list (Q * Q)) (hi : Q) : Prop :=
  match spans with
  | [] => lo == hi
  | (s, e) :: rest => s == lo /\ s <= e /\ partitions e rest hi
  end.

(** The part of a value the generator counts. *)
Definition positivePart (v : Q) : Q := if Js.gt v 0 then v else 0.

Fixpoint Qsum (vs : list Q) : Q :=
  match vs with
  | [] => 0
  | v :: rest => v + Qsum rest
  end.

(* ------------------------------------------------------------------ *)
(** ** Types of the props, of the hooks and of the imported helpers *)

(** Values the chart only passes through: formatters, render callbacks,
    legend items, style objects and the legend's measurement callback.  The
    chart never inspects them, so they are kept abstract. *)
Record Host : Type := mkHost {
  LabelFormatter : Type;
  ComparisonMetricProps : Type;
  RenderInnerValueContent : Type;
  RenderLegendContent : Type;
  RenderHiddenLegendLabel : Type;
  LegendData : Type;
  GetColorVisionStyles : Type;
  GetColorVisionEventAttrs : Type;
  CSSProperties : Type;
  SeriesColorsTheme : Type;
  SetLegendDimensions : Type
}.

(** [ChartState]. *)
Inductive ChartState : Type :=
| Loading
| Error
| Success.

Definition ChartState_eqb (a b : ChartState) : bool :=
  match a, b with
  | Loading, Loading | Error, Error | Success, Success => true
  | _, _ => false
  end.

(** [Direction]. *)
Inductive Direction : Type :=
| vertical
| horizontal.

Definition Direction_eqb (a b : Direction) : bool :=
  match a, b with
  | vertical, vertical | horizontal, horizontal => true
  | _, _ => false
  end.

(** [Dimensions] and the rectangle [{...dimensions, x: 0, y: 0}]. *)
Record Dimensions : Type := mkDimensions {
  height : Q;
  width : Q
}.

Record BoundingRect : Type := mkBoundingRect {
  rect_height : Q;
  rect_width : Q;
  rect_x : Q;
  rect_y : Q
}.

Definition withOrigin (d : Dimensions) : BoundingRect :=
  mkBoundingRect (height d) (width d) 0 0.

(** The part of the theme the chart reads, and the palette it hands to
    [getSeriesColors]. *)
Record ArcTheme : Type := mkArcTheme {
  theme_cornerRadius : Q;
  theme_thickness : Q
}.

Record GridTheme : Type := mkGridTheme {
  grid_color : string
}.

Record Theme (H : Host) : Type := mkTheme {
  arc : ArcTheme;
  grid : GridTheme;
  seriesColors : SeriesColorsTheme H
}.
Arguments mkTheme {H}.
Arguments arc {H}.
Arguments grid {H}.
Arguments seriesColors {H}.

(** [ChartProps].  A field with a default in the parameter list of [Chart]
    is an [option]: [None] is a prop left out. *)
Record ChartProps (H : Host) : Type := mkChartProps {
  p_data : list DataSeries;
  p_labelFormatter : LabelFormatter H;
  p_legendPosition : option string;
  p_seriesNameFormatter : LabelFormatter H;
  p_showLegend : bool;
  p_showLegendValues : bool;
  p_state : ChartState;
  p_theme : string;
  p_accessibilityLabel : option string;
  p_comparisonMetric : option (ComparisonMetricProps H);
  p_dimensions : option Dimensions;
  p_errorText : option string;
  p_legendFullWidth : option bool;
  p_renderInnerValueContent : option (RenderInnerValueContent H);
  p_renderLegendContent : option (RenderLegendContent H);
  p_renderHiddenLegendLabel : option (RenderHiddenLegendLabel H);
  p_total : option Q
}.
Arguments mkChartProps {H}.
Arguments p_data {H}.
Arguments p_labelFormatter {H}.
Arguments p_legendPosition {H}.
Arguments p_seriesNameFormatter {H}.
Arguments p_showLegend {H}.
Arguments p_showLegendValues {H}.
Arguments p_state {H}.
Arguments p_theme {H}.
Arguments p_accessibilityLabel {H}.
Arguments p_comparisonMetric {H}.
Arguments p_dimensions {H}.
Arguments p_errorText {H}.
Arguments p_legendFullWidth {H}.
Arguments p_renderInnerValueContent {H}.
Arguments p_renderLegendContent {H}.
Arguments p_renderHiddenLegendLabel {H}.
Arguments p_total {H}.

(** Argument and result of [useLegend]. *)
Record LegendSeriesGroup : Type := mkLegendSeriesGroup {
  series : list DataSeries;
  shape : string
}.

Record UseLegendArgs (H : Host) : Type := mkUseLegendArgs {
  ul_data : list LegendSeriesGroup;
  ul_dimensions : Dimensions;
  ul_showLegend : bool;
  ul_direction : Direction;
  ul_colors : list Color;
  ul_maxWidth : Q;
  ul_seriesNameFormatter : LabelFormatter H
}.
Arguments mkUseLegendArgs {H}.
Arguments ul_data {H}.
Arguments ul_dimensions {H}.
Arguments ul_showLegend {H}.
Arguments ul_direction {H}.
Arguments ul_colors {H}.
Arguments ul_maxWidth {H}.
Arguments ul_seriesNameFormatter {H}.

Record UseLegendResult (H : Host) : Type := mkUseLegendResult {
  r_height : Q;
  r_width : Q;
  r_legend : list (LegendData H);
  r_setLegendDimensions : SetLegendDimensions H;
  r_isLegendMounted : bool
}.
Arguments mkUseLegendResult {H}.
Arguments r_height {H}.
Arguments r_width {H}.
Arguments r_legend {H}.
Arguments r_setLegendDimensions {H}.
Arguments r_isLegendMounted {H}.

(** What the hooks return in one render.  [useState] is not among them: the
    component's own state is the explicit [LocalState] below. *)
Record Hooks (H : Host) : Type := mkHooks {
  useChartContext_shouldAnimate : bool;
  useUniqueId : string -> string;
  useTheme : Theme H;
  useLegend : UseLegendArgs H -> UseLegendResult H
}.
Arguments mkHooks {H}.
Arguments useChartContext_shouldAnimate {H}.
Arguments useUniqueId {H}.
Arguments useTheme {H}.
Arguments useLegend {H}.

(** Constants and helpers imported from modules that are not among the
    sources, and the language's number-to-string conversion. *)
Record Imports (H : Host) : Type := mkImports {
  COLOR_VISION_SINGLE_ITEM : string;
  THIN_ARC_CORNER_THICKNESS : Q;
  getSeriesColors : nat -> Theme H -> list Color;
  getAnimationDelayForItems : nat -> Q;
  getContainerAlignmentForLegend : string -> CSSProperties H;
  numberToString : Q -> string
}.
Arguments mkImports {H}.
Arguments COLOR_VISION_SINGLE_ITEM {H}.
Arguments THIN_ARC_CORNER_THICKNESS {H}.
Arguments getSeriesColors {H}.
Arguments getAnimationDelayForItems {H}.
Arguments getContainerAlignmentForLegend {H}.
Arguments numberToString {H}.

(** Modelled from the spec: [clamp] comes from the core package, which is
    not among the sources.  The chart clamps the series count to at least 1
    with no upper bound ([max: Infinity], here [None]). *)
Definition clamp (amount min : nat) (max : option nat) : nat :=
  match max with
  | Some m => Nat.min (Nat.max amount min) m
  | None => Nat.max amount min
  end.

(** The component's [useState<number>(-1)]. *)
Record LocalState : Type := mkLocalState {
  activeIndex : Z
}.

Definition initialState : LocalState := mkLocalState (-1).

Definition setActiveIndex (i : Z) (_ : LocalState) : LocalState :=
  mkLocalState i.

(** A color-vision event: a [CustomEvent] whose [detail] carries an index. *)
Record EventDetail : Type := mkEventDetail {
  index : Z
}.

Record ColorVisionEvent : Type := mkColorVisionEvent {
  event_type : string;
  detail : EventDetail
}.

(* ------------------------------------------------------------------ *)
(** ** The element tree the chart returns *)

(** Props of [<Arc>].  The placeholder arc of the empty state is given no
    [animationDelay], [index] or [activeIndex]. *)
Record ArcProps : Type := mkArcProps {
  a_isAnimated : bool;
  a_animationDelay : option Q;
  a_index : option nat;
  a_activeIndex : option Z;
  a_width : Q;
  a_height : Q;
  a_radius : Q;
  a_startAngle : Q;
  a_endAngle : Q;
  a_color : option Color;
  a_cornerRadius : Q;
  a_thickness : Q
}.

(** A [<g>] holding one arc: [<g aria-hidden>] for the placeholder,
    [<g key aria-label role="img">] for a slice. *)
Record ArcGroup : Type := mkArcGroup {
  g_key : option string;
  g_ariaHidden : bool;
  g_ariaLabel : option string;
  g_role : option string;
  g_arc : ArcProps
}.

(** [<svg>]: its children are [None] while the legend is not mounted. *)
Record Svg : Type := mkSvg {
  viewBox : string;
  svg_height : Q;
  svg_width : Q;
  svg_groups : option (list ArcGroup)
}.

Record InnerValueProps (H : Host) : Type := mkInnerValueProps {
  iv_activeValue : option (option Q);
  iv_activeIndex : Z;
  iv_isAnimated : bool;
  iv_totalValue : Q;
  iv_comparisonMetric : option (ComparisonMetricProps H);
  iv_labelFormatter : LabelFormatter H;
  iv_renderInnerValueContent : option (RenderInnerValueContent H);
  iv_diameter : Q;
  iv_dimensions : Dimensions
}.
Arguments mkInnerValueProps {H}.
Arguments iv_activeValue {H}.
Arguments iv_activeIndex {H}.
Arguments iv_isAnimated {H}.
Arguments iv_totalValue {H}.
Arguments iv_comparisonMetric {H}.
Arguments iv_labelFormatter {H}.
Arguments iv_renderInnerValueContent {H}.
Arguments iv_diameter {H}.
Arguments iv_dimensions {H}.

Record ColorVisionInteractionMethods (H : Host) : Type := mkMethods {
  getColorVisionStyles : GetColorVisionStyles H;
  getColorVisionEventAttrs : GetColorVisionEventAttrs H
}.
Arguments mkMethods {H}.
Arguments getColorVisionStyles {H}.
Arguments getColorVisionEventAttrs {H}.

Record LegendValuesProps (H : Host) : Type := mkLegendValuesProps {
  lv_data : list DataSeries;
  lv_activeIndex : Z;
  lv_dimensions : BoundingRect;
  lv_legendFullWidth : bool;
  lv_labelFormatter : LabelFormatter H;
  lv_getColorVisionStyles : GetColorVisionStyles H;
  lv_getColorVisionEventAttrs : GetColorVisionEventAttrs H;
  lv_renderHiddenLegendLabel : option (RenderHiddenLegendLabel H);
  lv_seriesNameFormatter : LabelFormatter H
}.
Arguments mkLegendValuesProps {H}.
Arguments lv_data {H}.
Arguments lv_activeIndex {H}.
Arguments lv_dimensions {H}.
Arguments lv_legendFullWidth {H}.
Arguments lv_labelFormatter {H}.
Arguments lv_getColorVisionStyles {H}.
Arguments lv_getColorVisionEventAttrs {H}.
Arguments lv_renderHiddenLegendLabel {H}.
Arguments lv_seriesNameFormatter {H}.

(** The [renderLegendContent] prop of the legend container: the chart's own
    [renderLegendContentWithValues], or the caller's callback. *)
Inductive LegendContentRenderer (H : Host) : Type :=
| WithValues (render : ColorVisionInteractionMethods H -> LegendValuesProps H)
| Custom (render : RenderLegendContent H).
Arguments WithValues {H}.
Arguments Custom {H}.

Record LegendContainerProps (H : Host) : Type := mkLegendContainerProps {
  lc_fullWidth : bool;
  lc_onDimensionChange : SetLegendDimensions H;
  lc_colorVisionType : string;
  lc_data : list (LegendData H);
  lc_direction : Direction;
  lc_position : string;
  lc_maxWidth : Q;
  lc_enableHideOverflow : bool;
  lc_dimensions : BoundingRect;
  lc_renderLegendContent : option (LegendContentRenderer H)
}.
Arguments mkLegendContainerProps {H}.
Arguments lc_fullWidth {H}.
Arguments lc_onDimensionChange {H}.
Arguments lc_colorVisionType {H}.
Arguments lc_data {H}.
Arguments lc_direction {H}.
Arguments lc_position {H}.
Arguments lc_maxWidth {H}.
Arguments lc_enableHideOverflow {H}.
Arguments lc_dimensions {H}.
Arguments lc_renderLegendContent {H}.

Record ChartSkeletonProps : Type := mkChartSkeletonProps {
  sk_dimensions : Dimensions;
  sk_state : ChartState;
  sk_type : string;
  sk_errorText : option string;
  sk_theme : string
}.

(** The child of [<div className={styles.Donut}>]. *)
Inductive DonutContent (H : Host) : Type :=
| SuccessFragment (hiddenLabel : string) (svg : Svg) (inner : InnerValueProps H)
| Skeleton (skeleton : ChartSkeletonProps).
Arguments SuccessFragment {H}.
Arguments Skeleton {H}.

Record DynamicStyles (H : Host) : Type := mkDynamicStyles {
  alignment : CSSProperties H;
  gap : option string
}.
Arguments mkDynamicStyles {H}.
Arguments alignment {H}.
Arguments gap {H}.

(** [<div className={styles.DonutWrapper}>]. *)
Record DonutWrapper (H : Host) : Type := mkDonutWrapper {
  w_style : DynamicStyles H;
  w_donut : DonutContent H;
  w_legend : option (LegendContainerProps H)
}.
Arguments mkDonutWrapper {H}.
Arguments w_style {H}.
Arguments w_donut {H}.
Arguments w_legend {H}.

(** The two color-vision hooks are called for their effect; a render
    records the arguments it called them with. *)
Record UseColorVisionEventsArgs : Type := mkUseColorVisionEventsArgs {
  cv_enabled : bool;
  cv_dimensions : BoundingRect
}.

Record WatchColorVisionEventsArgs : Type := mkWatchArgs {
  watch_type : string;
  onIndexChange : ColorVisionEvent -> LocalState -> LocalState
}.

(** One render: the hook calls and the returned element ([None] is the
    [null] the chart returns before it has a size). *)
Record Rendered (H : Host) : Type := mkRendered {
  colorVisionEvents : UseColorVisionEventsArgs;
  watchColorVisionEvents : WatchColorVisionEventsArgs;
  element : option (DonutWrapper H)
}.
Arguments mkRendered {H}.
Arguments colorVisionEvents {H}.
Arguments watchColorVisionEvents {H}.
Arguments element {H}.

(* ------------------------------------------------------------------ *)
(** ** Chart.tsx: the [Chart] component *)

(** [s.includes(sub)]. *)
Definition includes (s sub : string) : bool :=
  match String.index 0 sub s with
  | Some _ => true
  | None => false
  end.

(** [xs[i]] for a numeric index that need not be a valid position. *)
Definition at_index {A : Type} (xs : list A) (i : Z) : option A :=
  if (i <? 0)%Z then None else nth_error xs (Z.to_nat i).

(** A [name] inside a template literal. *)
Definition nameToString (n : option string) : string :=
  match n with
  | Some s => s
  | None => "undefined"%string
  end.

Section Component.

Context {H : Host}.
Variable imports : Imports H.
Variable hooks : Hooks H.
Variable props : ChartProps H.
Variable state : LocalState.

(** Destructuring defaults of the parameter list. *)
Definition legendPosition : string :=
  match p_legendPosition props with
  | Some p => p
  | None => "right"%string
  end.

Definition accessibilityLabel : string :=
  match p_accessibilityLabel props with
  | Some l => l
  | None => ""%string
  end.

Definition dimensions : Dimensions :=
  match p_dimensions props with
  | Some d => d
  | None => mkDimensions 0 0
  end.

Definition legendFullWidth : bool :=
  match p_legendFullWidth props with
  | Some b => b
  | None => false
  end.

Definition shouldAnimate : bool := useChartContext_shouldAnimate hooks.
Definition chartId : string := useUniqueId hooks "Donut"%string.
Definition selectedTheme : Theme H := useTheme hooks.

Definition seriesCount : nat :=
  clamp (List.length (p_data props)) 1 None.

Definition seriesColor : list Color :=
  getSeriesColors imports seriesCount selectedTheme.

Definition legendDirection : Direction :=
  if (String.eqb legendPosition "right"%string || String.eqb legendPosition "left"%string)%bool
  then vertical
  else horizontal.

Definition maxLegendWidth : Q :=
  if Direction_eqb legendDirection vertical
  then width dimensions / 2
  else 0.

Definition useLegendArgs : UseLegendArgs H :=
  {| ul_data := [mkLegendSeriesGroup (p_data props) "Bar"%string];
     ul_dimensions := dimensions;
     ul_showLegend := p_showLegend props;
     ul_direction := legendDirection;
     ul_colors := seriesColor;
     ul_maxWidth := maxLegendWidth;
     ul_seriesNameFormatter := p_seriesNameFormatter props |}.

Definition legendResult : UseLegendResult H := useLegend hooks useLegendArgs.

Definition shouldUseColorVisionEvents : bool :=
  (Js.truthy (r_width legendResult)
   && Js.truthy (r_height legendResult)
   && r_isLegendMounted legendResult)%bool.

Definition colorVisionEventsArgs : UseColorVisionEventsArgs :=
  {| cv_enabled := shouldUseColorVisionEvents;
     cv_dimensions := withOrigin dimensions |}.

Definition watchArgs : WatchColorVisionEventsArgs :=
  {| watch_type := COLOR_VISION_SINGLE_ITEM imports;
     onIndexChange := fun event => setActiveIndex (index (detail event)) |}.

Definition diameter : Q :=
  Js.Math_min (r_height legendResult) (r_width legendResult).
Definition radius : Q := diameter / 2.
Definition dynamicThickness : Q := r_height legendResult / 10.
Definition maxThickness : Q := theme_thickness (arc selectedTheme).
Definition thickness : Q :=
  if Js.gt (r_height legendResult) SMALL_CHART_HEIGHT_THRESHOLD
  then Js.Math_min dynamicThickness maxThickness
  else THIN_ARC_CORNER_THICKNESS imports.

Definition points : list DataPoint := flattenPoints (p_data props).

Definition pieChartData : list (D3.PieArcDatum DataPoint) := createPie points.

Definition emptyState : bool :=
  (Nat.eqb (List.length pieChartData) 0 || isEveryValueZero points)%bool.

(** [total || points.reduce(...)]. *)
Definition totalValue : Q :=
  match p_total props with
  | Some t => if Js.truthy t then t else sumOfValues points
  | None => sumOfValues points
  end.

(** [points[activeIndex]?.value]. *)
Definition activeValue : option (option Q) :=
  option_map value (at_index points (activeIndex state)).

Definition minX : Q := -40.
Definition minY : Q := -40.
Definition viewBoxDimensions : Dimensions :=
  mkDimensions (diameter + RADIUS_PADDING) (diameter + RADIUS_PADDING).

Definition dynamicStyles : DynamicStyles H :=
  {| alignment := getContainerAlignmentForLegend imports legendPosition;
     gap := if Direction_eqb legendDirection vertical then Some "16px"%string else None |}.

Definition renderLegendContentWithValues
           (methods : ColorVisionInteractionMethods H) : LegendValuesProps H :=
  {| lv_data := p_data props;
     lv_activeIndex := activeIndex state;
     lv_dimensions := withOrigin dimensions;
     lv_legendFullWidth := legendFullWidth;
     lv_labelFormatter := p_labelFormatter props;
     lv_getColorVisionStyles := getColorVisionStyles methods;
     lv_getColorVisionEventAttrs := getColorVisionEventAttrs methods;
     lv_renderHiddenLegendLabel := p_renderHiddenLegendLabel props;
     lv_seriesNameFormatter := p_seriesNameFormatter props |}.

Definition shouldRenderLegendContentWithValues : bool :=
  (match p_renderLegendContent props with
   | Some _ => false
   | None => true
   end
   && p_showLegendValues props
   && Direction_eqb legendDirection vertical)%bool.

Definition isCornerPosition : bool := includes legendPosition "-"%string.

(** The placeholder of the empty state. *)
Definition emptyArc : ArcGroup :=
  {| g_key := None;
     g_ariaHidden := true;
     g_ariaLabel := None;
     g_role := None;
     g_arc :=
       {| a_isAnimated := shouldAnimate;
          a_animationDelay := None;
          a_index := None;
          a_activeIndex := None;
          a_width := diameter;
          a_height := diameter;
          a_radius := radius;
          a_startAngle := 0;
          a_endAngle := FULL_CIRCLE;
          a_color := Some (Solid (grid_color (grid selectedTheme)));
          a_cornerRadius := theme_cornerRadius (arc selectedTheme);
          a_thickness := thickness |} |}.

(** [data[index]?.color ?? seriesColor[index]]. *)
Definition sliceColor (index : nat) : option Color :=
  match
    match nth_error (p_data props) index with
    | Some s => color s
    | None => None
    end
  with
  | Some c => Some c
  | None => nth_error seriesColor index
  end.

(** [data[index].name]: reading a property of [undefined] throws. *)
Definition sliceName (index : nat) : Js.Completion (option string) :=
  match nth_error (p_data props) index with
  | Some s => Js.Normal (name s)
  | None =>
      Js.Throw (Js.TypeError
        "Cannot read properties of undefined (reading 'name')"%string)
  end.

Definition keyToString (k : Key) : string :=
  match k with
  | KeyString s => s
  | KeyNumber n => numberToString imports n
  end.

Definition valueToString (v : option Q) : string :=
  match v with
  | Some n => numberToString imports n
  | None => "null"%string
  end.

(** The callback of [pieChartData.map]. *)
Definition renderSlice (slice : D3.PieArcDatum DataPoint) (index : nat)
  : Js.Completion ArcGroup :=
  let pieData := D3.arc_data slice in
  let color := sliceColor index in
  name <- sliceName index ;;
  let label :=
    (nameToString name ++ ": " ++ keyToString (key pieData)
       ++ " - " ++ valueToString (value pieData))%string in
  Js.Normal
    {| g_key := Some (chartId ++ "-arc-" ++ Js.indexToString index)%string;
       g_ariaHidden := false;
       g_ariaLabel := Some label;
       g_role := Some "img"%string;
       g_arc :=
         {| a_isAnimated := shouldAnimate;
            a_animationDelay :=
              Some (getAnimationDelayForItems imports (List.length pieChartData));
            a_index := Some index;
            a_activeIndex := Some (activeIndex state);
            a_width := diameter;
            a_height := diameter;
            a_radius := radius;
            a_startAngle := D3.startAngle slice;
            a_endAngle := D3.endAngle slice;
            a_color := color;
            a_cornerRadius := theme_cornerRadius (arc selectedTheme);
            a_thickness := thickness |} |}.

(** The children of [<svg>]. *)
Definition svgGroups : Js.Completion (option (list ArcGroup)) :=
  if r_isLegendMounted legendResult then
    if emptyState then Js.Normal (Some [emptyArc])
    else
      slices <- Js.mapi renderSlice pieChartData ;;
      Js.Normal (Some slices)
  else Js.Normal None.

Definition innerValue : InnerValueProps H :=
  {| iv_activeValue := activeValue;
     iv_activeIndex := activeIndex state;
     iv_isAnimated := shouldAnimate;
     iv_totalValue := totalValue;
     iv_comparisonMetric := p_comparisonMetric props;
     iv_labelFormatter := p_labelFormatter props;
     iv_renderInnerValueContent := p_renderInnerValueContent props;
     iv_diameter := diameter;
     iv_dimensions := dimensions |}.

Definition donutContent : Js.Completion (DonutContent H) :=
  if ChartState_eqb (p_state props) Success then
    groups <- svgGroups ;;
    Js.Normal
      (SuccessFragment accessibilityLabel
         {| viewBox :=
              (numberToString imports minX ++ " "
                 ++ numberToString imports minY ++ " "
                 ++ numberToString imports (width viewBoxDimensions) ++ " "
                 ++ numberToString imports (height viewBoxDimensions))%string;
            svg_height := diameter;
            svg_width := diameter;
            svg_groups := groups |}
         innerValue)
  else
    Js.Normal
      (Skeleton
         {| sk_dimensions := mkDimensions diameter diameter;
            sk_state := p_state props;
            sk_type := "Donut"%string;
            sk_errorText := p_errorText props;
            sk_theme := p_theme props |}).

Definition legendContainer : option (LegendContainerProps H) :=
  if p_showLegend props then
    Some
      {| lc_fullWidth := legendFullWidth;
         lc_onDimensionChange := r_setLegendDimensions legendResult;
         lc_colorVisionType := COLOR_VISION_SINGLE_ITEM imports;
         lc_data := r_legend legendResult;
         lc_direction := legendDirection;
         lc_position := legendPosition;
         lc_maxWidth := maxLegendWidth;
         lc_enableHideOverflow := negb isCornerPosition;
         lc_dimensions := withOrigin dimensions;
         lc_renderLegendContent :=
           if shouldRenderLegendContentWithValues
           then Some (WithValues renderLegendContentWithValues)
           else option_map Custom (p_renderLegendContent props) |}
  else None.

Definition Chart : Js.Completion (Rendered H) :=
  if (negb (Js.truthy (r_width legendResult))
      || negb (Js.truthy (r_height legendResult)))%bool
  then
    Js.Normal (mkRendered colorVisionEventsArgs watchArgs None)
  else
    content <- donutContent ;;
    Js.Normal
      (mkRendered colorVisionEventsArgs watchArgs
         (Some {| w_style := dynamicStyles;
                  w_donut := content;
                  w_legend := legendContainer |})).

End Component.

(* ------------------------------------------------------------------ *)
(** ** Color-vision events reaching the component *)

(** Modelled from the spec: [useWatchColorVisionEvents] is not among the
    sources.  The spec describes the bus as an event channel broadcasting the
    hovered/active index; a watcher registered for a type is called with each
    event of that type, and with no other. *)
Definition deliver (watcher : WatchColorVisionEventsArgs)
           (event : ColorVisionEvent) (st : LocalState) : LocalState :=
  if String.eqb (event_type event) (watch_type watcher)
  then onIndexChange watcher event st
  else st.

(** States of a mounted chart: the initial [useState] value, and whatever
    the delivered events make of it. *)
Inductive reachable {H : Host} (imports : Imports H) : LocalState -> Prop :=
| reachable_initial : reachable imports initialState
| reachable_event : forall st event,
    reachable imports st ->
    reachable imports (deliver (watchArgs imports) event st).

(** The arcs of a rendered element, in document order. *)
Definition groupsOf {H : Host} (w : DonutWrapper H) : list ArcGroup :=
  match w_donut w with
  | SuccessFragment _ svg _ =>
      match svg_groups svg with
      | Some gs => gs
      | None => []
      end
  | Skeleton _ => []
  end.

(** The slices are the groups that carry a slice index. *)
Definition isSlice (g : ArcGroup) : bool :=
  match a_index (g_arc g) with
  | Some _ => true
  | None => false
  end.

(** [highlights w i]: every slice of [w], its inner value and the legend
    values its legend container would render are given the active index
    [i]. *)
Definition highlights {H : Host} (w : DonutWrapper H) (i : Z) : Prop :=
  (forall g, In g (groupsOf w) -> isSlice g = true ->
             a_activeIndex (g_arc g) = Some i)
  /\ (forall label svg inner,
        w_donut w = SuccessFragment label svg inner ->
        iv_activeIndex inner = i)
  /\ (forall legend render methods,
        w_legend w = Some legend ->
        lc_renderLegendContent legend = Some (WithValues render) ->
        lv_activeIndex (render methods) = i).

(* ------------------------------------------------------------------ *)
(** ** TooltipContent.tsx *)

Module Tooltip.

Section Content.

(** [SeriesColor] and [LineStyle] come from the [types] module. *)
Context {SeriesColor LineStyle : Type}.

Record Point : Type := mkPoint {
  label : string;
  value : string
}.

Record TooltipData : Type := mkTooltipData {
  name : string;
  point : Point;
  color : SeriesColor;
  lineStyle : LineStyle
}.

Record LinePreviewProps : Type := mkLinePreviewProps {
  lp_color : SeriesColor;
  lp_lineStyle : LineStyle
}.

(** One [<React.Fragment key>]: a line preview and two paragraphs. *)
Record Group : Type := mkGroup {
  group_key : string;
  linePreview : LinePreviewProps;
  nameParagraph : string;
  valueParagraph : string
}.

(** [<div className={styles.Container}>]. *)
Record Container : Type := mkContainer {
  children : list Group
}.

(** The callback of [data.map]. *)
Definition renderEntry (entry : TooltipData) (index : nat) : Group :=
  {| group_key := (name entry ++ "-" ++ Js.indexToString index)%string;
     linePreview := mkLinePreviewProps (color entry) (lineStyle entry);
     nameParagraph := label (point entry);
     valueParagraph := value (point entry) |}.

Fixpoint mapEntries (i : nat) (entries : list TooltipData) : list Group :=
  match entries with
  | [] => []
  | entry :: rest => renderEntry entry i :: mapEntries (S i) rest
  end.

Definition TooltipContent (entries : list TooltipData) : Container :=
  mkContainer (mapEntries 0 entries).

(** What a group shows: everything but its React key. *)
Definition shown (g : Group) : SeriesColor * LineStyle * string * string :=
  (lp_color (linePreview g), lp_lineStyle (linePreview g),
   nameParagraph g, valueParagraph g).

Definition fieldsOf (entry : TooltipData)
  : SeriesColor * LineStyle * string * string :=
  (color entry, lineStyle entry, label (point entry), value (point entry)).

End Content.

Arguments Point : clear implicits.
Arguments TooltipData : clear implicits.
Arguments LinePreviewProps : clear implicits.
Arguments Group : clear implicits.
Arguments Container : clear implicits.

End Tooltip.


(* ------------------------------------------------------------------ *)
(** ** More vocabulary for the render *)

(** [highlightsEveryPoint imports hooks props w i]: unless the data is in
    the empty state, every arc of [w] is given the active index [i] and sits
    at the position its [index] says; and in the success state with the
    legend mounted there is one arc for every flattened data point. *)
Definition highlightsEveryPoint {H : Host} (imports : Imports H)
           (hooks : Hooks H) (props : ChartProps H) (w : DonutWrapper H)
           (i : Z) : Prop :=
  emptyState props = false ->
  Forall (fun g => a_activeIndex (g_arc g) = Some i) (groupsOf w)
  /\ (forall j g, nth_error (groupsOf w) j = Some g ->
                  a_index (g_arc g) = Some j)
  /\ (p_state props = Success ->
      r_isLegendMounted (legendResult imports hooks props) = true ->
      List.length (groupsOf w) = List.length (points props)).

(** [drawnWithSide w side]: what [w] draws, chart or skeleton, is a square
    of side [side]. *)
Definition drawnWithSide {H : Host} (w : DonutWrapper H) (side : Q) : Prop :=
  (forall label svg inner,
      w_donut w = SuccessFragment label svg inner ->
      svg_height svg = side /\ svg_width svg = side /\ iv_diameter inner = side)
  /\ (forall skeleton,
        w_donut w = Skeleton skeleton ->
        sk_dimensions skeleton = mkDimensions side side).


(* ------------------------------------------------------------------ *)
(** ** The legend negotiation as a loop *)

(** The host in which [setLegendDimensions] is a state setter: from the
    measured dimensions and the legend dimensions held so far to the legend
    dimensions held from now on. *)
Definition negotiatorHost (H : Host) : Host :=
  {| LabelFormatter := LabelFormatter H;
     ComparisonMetricProps := ComparisonMetricProps H;
     RenderInnerValueContent := RenderInnerValueContent H;
     RenderLegendContent := RenderLegendContent H;
     RenderHiddenLegendLabel := RenderHiddenLegendLabel H;
     LegendData := LegendData H;
     GetColorVisionStyles := GetColorVisionStyles H;
     GetColorVisionEventAttrs := GetColorVisionEventAttrs H;
     CSSProperties := CSSProperties H;
     SeriesColorsTheme := SeriesColorsTheme H;
     SetLegendDimensions := Dimensions -> Dimensions -> Dimensions |}.

(** What the spec leaves open of the negotiation: the area left to the chart
    once the space of a legend of given dimensions is reserved, the items of
    the legend, when the legend counts as mounted, and what a legend
    container measures of itself. *)
Record Negotiator (H : Host) : Type := mkNegotiator {
  drawableArea : UseLegendArgs (negotiatorHost H) -> Dimensions -> Dimensions;
  legendItems : UseLegendArgs (negotiatorHost H) -> list (LegendData H);
  legendMounted : UseLegendArgs (negotiatorHost H) -> Dimensions -> bool;
  measureLegend : LegendContainerProps (negotiatorHost H) -> Dimensions
}.
Arguments mkNegotiator {H}.
Arguments drawableArea {H}.
Arguments legendItems {H}.
Arguments legendMounted {H}.
Arguments measureLegend {H}.

(** Modelled from the spec: [useLegend] is not among the sources.  The spec's
    legend negotiator reserves and measures space for the legend before
    finalizing the chart's drawable area, and has the legend's measured
    dimensions reported back to the chart: the hook holds the legend's
    dimensions as state, its [setLegendDimensions] replaces them by a
    measurement, and the height and width it returns are the drawable area
    for the dimensions it holds. *)
Definition useLegendOf {H : Host} (negotiator : Negotiator H)
           (legendDimensions : Dimensions)
           (args : UseLegendArgs (negotiatorHost H))
  : UseLegendResult (negotiatorHost H) :=
  mkUseLegendResult (H := negotiatorHost H)
    (height (drawableArea negotiator args legendDimensions))
    (width (drawableArea negotiator args legendDimensions))
    (legendItems negotiator args)
    (fun measured _ => measured)
    (legendMounted negotiator args legendDimensions).

(** The hooks of a render in which [useLegend] holds [legendDimensions]. *)
Definition withLegend {H : Host} (negotiator : Negotiator H)
           (hooks : Hooks (negotiatorHost H)) (legendDimensions : Dimensions)
  : Hooks (negotiatorHost H) :=
  mkHooks (H := negotiatorHost H)
    (useChartContext_shouldAnimate hooks)
    (useUniqueId hooks)
    (useTheme hooks)
    (useLegendOf negotiator legendDimensions).

(** Modelled from the spec: [LegendContainer] is not among the sources.  The
    spec has the legend report its own measured dimensions back: the
    container calls its [onDimensionChange] with what it measures. *)
Definition reportDimensions {H : Host} (negotiator : Negotiator H)
           (legend : LegendContainerProps (negotiatorHost H))
           (legendDimensions : Dimensions) : Dimensions :=
  lc_onDimensionChange legend (measureLegend negotiator legend) legendDimensions.

(** One layout pass: the chart is rendered with the legend dimensions held so
    far; the legend container of the output, if there is one, reports its
    measurement.  The result is the render and the legend dimensions held
    for the next pass. *)
Definition layoutPass {H : Host} (negotiator : Negotiator H)
           (imports : Imports (negotiatorHost H))
           (hooks : Hooks (negotiatorHost H))
           (props : ChartProps (negotiatorHost H)) (st : LocalState)
           (legendDimensions : Dimensions)
  : Js.Completion (Rendered (negotiatorHost H) * Dimensions) :=
  rendered <- Chart imports (withLegend negotiator hooks legendDimensions)
                    props st ;;
  Js.Normal
    (rendered,
     match element rendered with
     | Some w =>
         match w_legend w with
         | Some legend => reportDimensions negotiator legend legendDimensions
         | None => legendDimensions
         end
     | None => legendDimensions
     end).


(* ------------------------------------------------------------------ *)
(** ** Concrete charts, used to exercise the statements below *)

Module Examples.

Definition host : Host :=
  {| LabelFormatter := unit;
     ComparisonMetricProps := unit;
     RenderInnerValueContent := unit;
     RenderLegendContent := unit;
     RenderHiddenLegendLabel := unit;
     LegendData := string;
     GetColorVisionStyles := unit;
     GetColorVisionEventAttrs := unit;
     CSSProperties := string;
     SeriesColorsTheme := list Color;
     SetLegendDimensions := Dimensions -> Dimensions -> Dimensions |}.

(** Prints the integer part of a number; the examples use integers. *)
Definition showInteger (q : Q) : string :=
  NilZero.string_of_int (Z.to_int (Qnum q / Zpos (Qden q))).

Definition imports : Imports host :=
  mkImports (H := host)
    "singleItem"%string
    2
    (fun count theme => firstn count (seriesColors theme))
    (fun count => 100 / inject_Z (Z.of_nat count))
    (fun position => position)
    showInteger.

Definition palette : list Color :=
  [Solid "#33798c"; Solid "#4b92e5"; Solid "#7f4afa"].

Definition theme : Theme host :=
  mkTheme (H := host) (mkArcTheme 2 18) (mkGridTheme "#eeeeef") palette.

(** A [useLegend] that reserves no room for the legend. *)
Definition legendOf (mounted : bool) (args : UseLegendArgs host)
  : UseLegendResult host :=
  mkUseLegendResult (H := host)
    (height (ul_dimensions args))
    (width (ul_dimensions args))
    (map (fun s => nameToString (name s)) (flat_map series (ul_data args)))
    (fun measured _ => measured)
    mounted.

(** A [useLegend] that keeps 40 units of height for a legend below. *)
Definition legendBelow (args : UseLegendArgs host) : UseLegendResult host :=
  mkUseLegendResult (H := host)
    (height (ul_dimensions args) - 40)
    (width (ul_dimensions args))
    (map (fun s => nameToString (name s)) (flat_map series (ul_data args)))
    (fun measured _ => measured)
    true.

Definition hooksBelow : Hooks host :=
  mkHooks (H := host)
    false
    (fun prefix => (prefix ++ "-1")%string)
    theme
    legendBelow.

Definition hooks (mounted : bool) : Hooks host :=
  mkHooks (H := host)
    false
    (fun prefix => (prefix ++ "-1")%string)
    theme
    (legendOf mounted).

(** A chart with a legend and every optional prop but [dimensions] left
    out. *)
Definition chartOf (series : list DataSeries) (st : ChartState)
           (size : Dimensions) : ChartProps host :=
  mkChartProps (H := host)
    series tt None tt true true st "Light"%string
    None None (Some size) None None None None None None.

(** Two series of one point each. *)
Definition twoSeries : list DataSeries :=
  [ mkDataSeries (Some "Shopify Payments"%string)
      [mkDataPoint (KeyString "april") (Some 1)] None;
    mkDataSeries (Some "Paypal"%string)
      [mkDataPoint (KeyString "april") (Some 3)] (Some (Solid "#ff0000")) ].

(** One series of two points. *)
Definition oneSeriesTwoPoints : list DataSeries :=
  [ mkDataSeries (Some "Shopify Payments"%string)
      [mkDataPoint (KeyString "april") (Some 1);
       mkDataPoint (KeyString "may") (Some 2)] None ].

Definition size200 : Dimensions := mkDimensions 200 200.
Definition size0 : Dimensions := mkDimensions 0 200.

Definition hover (i : Z) : ColorVisionEvent :=
  mkColorVisionEvent "singleItem" (mkEventDetail i).

Definition tooltipEntries : list (Tooltip.TooltipData Color string) :=
  [ Tooltip.mkTooltipData "Sales" (Tooltip.mkPoint "Monday" "$10")
      (Solid "#33798c") "solid";
    Tooltip.mkTooltipData "Returns" (Tooltip.mkPoint "Monday" "$2")
      (Solid "#4b92e5") "dashed" ]%string.

End Examples.


(** Further charts: values that are missing or negative, a legend in a
    corner, a caller-supplied legend content and total. *)
Module MoreExamples.

(** Two series whose only points carry no value. *)
Definition nullSeries : list DataSeries :=
  [ mkDataSeries (Some "Shopify Payments"%string)
      [mkDataPoint (KeyString "april") None] None;
    mkDataSeries None
      [mkDataPoint (KeyNumber 2) None] None ].

(** Points with a missing and a negative value among positive ones. *)
Definition mixedPoints : list DataPoint :=
  [ mkDataPoint (KeyString "a") (Some 1);
    mkDataPoint (KeyString "b") None;
    mkDataPoint (KeyString "c") (Some (-2));
    mkDataPoint (KeyString "d") (Some 3) ].

(** A chart whose legend sits in a corner. *)
Definition cornerChart : ChartProps Examples.host :=
  mkChartProps (H := Examples.host)
    Examples.twoSeries tt (Some "top-left"%string) tt true true Success
    "Light"%string None None (Some Examples.size200) None None None None None
    None.

(** A chart that brings its own legend content and its own total. *)
Definition customChart : ChartProps Examples.host :=
  mkChartProps (H := Examples.host)
    Examples.twoSeries tt None tt true true Success
    "Light"%string None None (Some Examples.size200) None None None (Some tt)
    None (Some 10).

(** A negotiator that reserves the legend's width beside the chart for a
    vertical legend and its height below the chart for a horizontal one,
    counts the legend as mounted once it has a height, and measures 20
    units of height per legend item and 60 of width. *)
Definition negotiator : Negotiator Examples.host :=
  mkNegotiator (H := Examples.host)
    (fun args legend =>
       if ul_showLegend args then
         match ul_direction args with
         | vertical =>
             mkDimensions (height (ul_dimensions args))
                          (width (ul_dimensions args) - width legend)
         | horizontal =>
             mkDimensions (height (ul_dimensions args) - height legend)
                          (width (ul_dimensions args))
         end
       else ul_dimensions args)
    (fun args => map (fun s => nameToString (name s))
                     (flat_map series (ul_data args)))
    (fun args legend => (negb (ul_showLegend args)
                         || Js.truthy (height legend))%bool)
    (fun legend =>
       mkDimensions (20 * inject_Z (Z.of_nat (List.length (lc_data legend))))
                    60).

Definition noLegendYet : Dimensions := mkDimensions 0 0.

End MoreExamples.


(* ------------------------------------------------------------------ *)
(** ** Facts about numbers *)

Lemma gt_true (a b : Q) : Js.gt a b = true <-> b < a.
Proof.
  unfold Js.gt. destruct (Qlt_le_dec b a) as [Hlt | Hle]; split; intros; try easy.
  exfalso. apply (Qlt_not_le _ _ H). exact Hle.
Qed.

Lemma gt_false (a b : Q) : Js.gt a b = false <-> a <= b.
Proof.
  unfold Js.gt. destruct (Qlt_le_dec b a) as [Hlt | Hle]; split; intros; try easy.
  exfalso. apply (Qlt_not_le _ _ Hlt). exact H.
Qed.

Lemma truthy_true (a : Q) : Js.truthy a = true <-> ~ a == 0.
Proof.
  unfold Js.truthy. rewrite negb_true_iff. split.
  - intros Hb Heq. apply Qeq_bool_iff in Heq. congruence.
  - intros Hne. destruct (Qeq_bool a 0) eqn:E; [|reflexivity].
    apply Qeq_bool_iff in E. contradiction.
Qed.

Lemma truthy_false (a : Q) : Js.truthy a = false <-> a == 0.
Proof.
  unfold Js.truthy. rewrite negb_false_iff. apply Qeq_bool_iff.
Qed.

Lemma positivePart_nonneg (v : Q) : 0 <= positivePart v.
Proof.
  unfold positivePart. destruct (Js.gt v 0) eqn:E.
  - apply gt_true in E. lra.
  - lra.
Qed.

Lemma positivePart_of_nonneg (v : Q) : 0 <= v -> positivePart v == v.
Proof.
  intros Hv. unfold positivePart. destruct (Js.gt v 0) eqn:E.
  - reflexivity.
  - apply gt_false in E. lra.
Qed.

(* ------------------------------------------------------------------ *)
(** ** The pie generator *)

Section PieFacts.

Context {D : Type}.
Variable valueOf : D -> Q.

Lemma positive_sum_from (ds : list D) (acc : Q) :
  fold_left (fun sum d => if Js.gt (valueOf d) 0 then sum + valueOf d else sum)
            ds acc
  == acc + D3.positive_sum valueOf ds.
Proof.
  unfold D3.positive_sum. revert acc.
  induction ds as [|d rest IH]; intros acc; simpl.
  - lra.
  - rewrite IH. rewrite (IH (if Js.gt (valueOf d) 0 then _ else _)).
    destruct (Js.gt (valueOf d) 0); lra.
Qed.

Lemma positive_sum_cons (d : D) (ds : list D) :
  D3.positive_sum valueOf (d :: ds)
  == positivePart (valueOf d) + D3.positive_sum valueOf ds.
Proof.
  unfold D3.positive_sum at 1. simpl. rewrite positive_sum_from.
  unfold positivePart. destruct (Js.gt (valueOf d) 0); lra.
Qed.

Lemma positive_sum_Qsum (ds : list D) :
  D3.positive_sum valueOf ds == Qsum (map (fun d => positivePart (valueOf d)) ds).
Proof.
  induction ds as [|d rest IH]; simpl.
  - reflexivity.
  - rewrite positive_sum_cons, IH. reflexivity.
Qed.

Lemma arcs_from_length k pa p a0 i (ds : list D) :
  List.length (D3.arcs_from valueOf k pa p a0 i ds) = List.length ds.
Proof.
  revert a0 i. induction ds as [|d rest IH]; intros a0 i; simpl.
  - reflexivity.
  - now rewrite IH.
Qed.

Lemma arcs_from_data k pa p a0 i (ds : list D) :
  map D3.arc_data (D3.arcs_from valueOf k pa p a0 i ds) = ds.
Proof.
  revert a0 i. induction ds as [|d rest IH]; intros a0 i; simpl.
  - reflexivity.
  - now rewrite IH.
Qed.

Lemma arcs_from_index k pa p a0 i (ds : list D) :
  map D3.arc_index (D3.arcs_from valueOf k pa p a0 i ds) = seq i (List.length ds).
Proof.
  revert a0 i. induction ds as [|d rest IH]; intros a0 i; simpl.
  - reflexivity.
  - now rewrite IH.
Qed.

Lemma arcs_from_span k pa p a0 i (ds : list D) :
  Forall (fun a => D3.endAngle a - D3.startAngle a
                   == positivePart (valueOf (D3.arc_data a)) * k + pa)
         (D3.arcs_from valueOf k pa p a0 i ds).
Proof.
  revert a0 i. induction ds as [|d rest IH]; intros a0 i; simpl.
  - constructor.
  - constructor; [|apply IH]. simpl. unfold positivePart.
    destruct (Js.gt (valueOf d) 0); ring.
Qed.

Lemma arcs_from_partitions k pa p a0 i (ds : list D) (hi : Q) :
  0 <= k -> pa == 0 ->
  hi == a0 + k * D3.positive_sum valueOf ds ->
  partitions a0 (map angles (D3.arcs_from valueOf k pa p a0 i ds)) hi.
Proof.
  intros Hk Hpa. revert a0 i.
  induction ds as [|d rest IH]; intros a0 i Hhi; simpl.
  - rewrite Hhi. unfold D3.positive_sum. simpl. ring.
  - split; [reflexivity|]. split.
    + pose proof (positivePart_nonneg (valueOf d)) as Hp.
      unfold positivePart in Hp.
      destruct (Js.gt (valueOf d) 0).
      * pose proof (Qmult_le_0_compat _ _ Hp Hk). lra.
      * lra.
    + apply IH. rewrite Hhi, positive_sum_cons, Hpa. unfold positivePart.
      destruct (Js.gt (valueOf d) 0); ring.
Qed.

(** Angles depend on the data only through the values. *)
Lemma arcs_from_values k pa p a0 i (ds : list D) :
  map angles (D3.arcs_from valueOf k pa p a0 i ds)
  = map angles (D3.arcs_from (fun v : Q => v) k pa p a0 i (map valueOf ds)).
Proof.
  revert a0 i. induction ds as [|d rest IH]; intros a0 i; simpl.
  - reflexivity.
  - now rewrite IH.
Qed.

Lemma positive_sum_values (ds : list D) :
  D3.positive_sum valueOf ds = D3.positive_sum (fun v : Q => v) (map valueOf ds).
Proof.
  unfold D3.positive_sum.
  enough (Hacc : forall acc,
    fold_left (fun sum d => if Js.gt (valueOf d) 0 then sum + valueOf d else sum)
              ds acc
    = fold_left (fun sum v => if Js.gt v 0 then sum + v else sum)
                (map valueOf ds) acc) by apply Hacc.
  induction ds as [|d rest IH]; intros acc; simpl.
  - reflexivity.
  - now rewrite IH.
Qed.

Lemma layout_values full s e pd (ds : list D) :
  map angles (D3.layout full s e pd valueOf ds)
  = map angles (D3.layout full s e pd (fun v : Q => v) (map valueOf ds)).
Proof.
  unfold D3.layout. rewrite arcs_from_values, positive_sum_values, length_map.
  reflexivity.
Qed.

End PieFacts.

Section LayoutFacts.

Context {D : Type}.
Variable valueOf : D -> Q.
Variable full : Q.
Hypothesis full_nonneg : 0 <= full.

Lemma layout_da : Js.Math_min full (Js.Math_max (- full) (full - 0)) == full.
Proof.
  unfold Js.Math_min, Js.Math_max.
  apply Q.min_l. apply Qle_trans with (full - 0); [lra | apply Q.le_max_r].
Qed.

Lemma layout_p (n da : Q) : 0 <= n -> Js.Math_min (Js.Math_abs da / n) 0 == 0.
Proof.
  intros Hn. unfold Js.Math_min, Js.Math_abs. apply Q.min_r.
  unfold Qdiv. apply Qmult_le_0_compat.
  - apply Qabs_nonneg.
  - apply Qinv_le_0_compat. exact Hn.
Qed.

Lemma layout_unfold (ds : list D) :
  0 < D3.positive_sum valueOf ds ->
  exists k pa p,
    D3.layout full 0 full 0 valueOf ds = D3.arcs_from valueOf k pa p 0 0 ds
    /\ pa == 0
    /\ k == full / D3.positive_sum valueOf ds.
Proof.
  intros Hsum. unfold D3.layout.
  set (n := inject_Z (Z.of_nat (List.length ds))).
  set (da := Js.Math_min full (Js.Math_max (- full) (full - 0))).
  set (p := Js.Math_min (Js.Math_abs da / n) 0).
  assert (Hda : da == full) by apply layout_da.
  assert (Hn : 0 <= n).
  { unfold n. change 0 with (inject_Z 0). rewrite <- Zle_Qle. lia. }
  assert (Hp : p == 0) by (apply layout_p; exact Hn).
  assert (Hlt : Js.lt da 0 = false).
  { unfold Js.lt. apply gt_false. rewrite Hda. exact full_nonneg. }
  assert (Ht : Js.truthy (D3.positive_sum valueOf ds) = true).
  { apply truthy_true. lra. }
  rewrite Hlt, Ht.
  exists ((da - n * (p * 1)) / D3.positive_sum valueOf ds), (p * 1), p.
  split; [reflexivity|]. split.
  - rewrite Hp. ring.
  - rewrite Hda, Hp. field. lra.
Qed.

Lemma layout_length (ds : list D) :
  List.length (D3.layout full 0 full 0 valueOf ds) = List.length ds.
Proof. apply arcs_from_length. Qed.

Lemma layout_data (ds : list D) :
  map D3.arc_data (D3.layout full 0 full 0 valueOf ds) = ds.
Proof. apply arcs_from_data. Qed.

Lemma layout_span (ds : list D) :
  0 < D3.positive_sum valueOf ds ->
  Forall (fun a => D3.endAngle a - D3.startAngle a
                   == positivePart (valueOf (D3.arc_data a))
                      * (full / D3.positive_sum valueOf ds))
         (D3.layout full 0 full 0 valueOf ds).
Proof.
  intros Hsum. destruct (layout_unfold ds Hsum) as (k & pa & p & -> & Hpa & Hk).
  eapply Forall_impl; [|apply arcs_from_span].
  intros a Ha. cbv beta in Ha. rewrite Ha, Hpa, Hk. ring.
Qed.

Lemma layout_partitions (ds : list D) :
  0 < D3.positive_sum valueOf ds ->
  partitions 0 (map angles (D3.layout full 0 full 0 valueOf ds)) full.
Proof.
  intros Hsum. destruct (layout_unfold ds Hsum) as (k & pa & p & -> & Hpa & Hk).
  apply arcs_from_partitions.
  - rewrite Hk. unfold Qdiv. apply Qmult_le_0_compat; [exact full_nonneg|].
    apply Qinv_le_0_compat. lra.
  - exact Hpa.
  - rewrite Hk. field. lra.
Qed.

End LayoutFacts.

Lemma tau_nonneg : 0 <= D3.tau.
Proof. unfold D3.tau, Js.Math_PI. lra. Qed.

Lemma FULL_CIRCLE_tau : FULL_CIRCLE == D3.tau.
Proof. unfold FULL_CIRCLE, D3.tau. ring. Qed.

Lemma sumOfValues_from (pts : list DataPoint) (acc : Q) :
  fold_left (fun acc d => Js.toNumber (value d) + acc) pts acc
  == acc + Qsum (map valueNumber pts).
Proof.
  revert acc. induction pts as [|d rest IH]; intros acc; simpl.
  - ring.
  - rewrite IH. unfold valueNumber. ring.
Qed.

Lemma sumOfValues_Qsum (pts : list DataPoint) :
  sumOfValues pts == Qsum (map valueNumber pts).
Proof. unfold sumOfValues. rewrite sumOfValues_from. ring. Qed.

Lemma positive_sum_nonneg (pts : list DataPoint) :
  Forall (fun d => 0 <= valueNumber d) pts ->
  D3.positive_sum valueNumber pts == sumOfValues pts.
Proof.
  intros Hall. rewrite positive_sum_Qsum, sumOfValues_Qsum.
  induction Hall as [|d rest Hd _ IH]; simpl.
  - reflexivity.
  - rewrite IH, (positivePart_of_nonneg _ Hd). reflexivity.
Qed.

Lemma partitions_hi (lo : Q) (spans : list (Q * Q)) (hi hi' : Q) :
  hi == hi' -> partitions lo spans hi -> partitions lo spans hi'.
Proof.
  intros Heq. revert lo. induction spans as [|[s e] rest IH]; intros lo; simpl.
  - intros ->. exact Heq.
  - intros (Hs & Hle & Hrest). auto.
Qed.

Lemma partitions_ordered (lo : Q) (spans : list (Q * Q)) (hi : Q) :
  partitions lo spans hi -> Forall (fun se => fst se <= snd se) spans.
Proof.
  revert lo. induction spans as [|[s e] rest IH]; intros lo; simpl.
  - constructor.
  - intros (_ & Hle & Hrest). constructor; [exact Hle | eapply IH; eauto].
Qed.

Lemma createPie_layout (pts : list DataPoint) :
  createPie pts = D3.layout D3.tau 0 D3.tau 0 valueNumber pts.
Proof. reflexivity. Qed.

(** C1.  For series whose flattened points have non-negative values and a
    positive total, the pie computation returns one (startAngle, endAngle)
    pair per point, in input order and carrying the point unchanged; every
    pair has startAngle <= endAngle; every span is the point's value times
    [FULL_CIRCLE / total]; the pairs tile [[0, FULL_CIRCLE]]; and the angles
    are a function of the point values alone. *)
Theorem pie_angles_partition_circle (series : list DataSeries) :
  let pts := flattenPoints series in
  let slices := createPie pts in
  Forall (fun d => 0 <= valueNumber d) pts ->
  0 < sumOfValues pts ->
  List.length slices = List.length pts
  /\ map D3.arc_data slices = pts
  /\ Forall (fun a => D3.startAngle a <= D3.endAngle a) slices
  /\ Forall (fun a => D3.endAngle a - D3.startAngle a
                      == valueNumber (D3.arc_data a)
                         * (FULL_CIRCLE / sumOfValues pts)) slices
  /\ partitions 0 (map angles slices) FULL_CIRCLE
  /\ (forall pts' : list DataPoint,
        map valueNumber pts' = map valueNumber pts ->
        map angles (createPie pts') = map angles slices).
Proof.
  intros pts slices Hnonneg Htotal. subst slices.
  rewrite createPie_layout.
  pose proof (positive_sum_nonneg pts Hnonneg) as Hsum.
  assert (Hpos : 0 < D3.positive_sum valueNumber pts) by (rewrite Hsum; exact Htotal).
  pose proof (layout_partitions valueNumber D3.tau tau_nonneg pts Hpos) as Hpart.
  pose proof (layout_data valueNumber D3.tau pts) as Hdata.
  split; [apply layout_length|].
  split; [exact Hdata|].
  split.
  { apply partitions_ordered in Hpart. rewrite Forall_map in Hpart. exact Hpart. }
  split.
  { pose proof (layout_span valueNumber D3.tau tau_nonneg pts Hpos) as Hspan.
    rewrite Forall_forall in *. intros a Hin.
    rewrite (Hspan a Hin), Hsum, FULL_CIRCLE_tau.
    rewrite positivePart_of_nonneg; [reflexivity|].
    apply Hnonneg. rewrite <- Hdata. apply in_map. exact Hin. }
  split.
  { apply partitions_hi with (hi := D3.tau); [|exact Hpart].
    symmetry. apply FULL_CIRCLE_tau. }
  intros pts' Hvalues. rewrite createPie_layout.
  rewrite (layout_values valueNumber _ _ _ _ pts').
  rewrite (layout_values valueNumber _ _ _ _ pts).
  rewrite Hvalues. reflexivity.
Qed.


Lemma pie_angles_partition_circle_witness :
  Forall (fun d => 0 <= valueNumber d) (flattenPoints Examples.twoSeries)
  /\ 0 < sumOfValues (flattenPoints Examples.twoSeries)
  /\ partitions 0
       (map angles (createPie (flattenPoints Examples.twoSeries)))
       FULL_CIRCLE.
Proof.
  assert (Hnonneg :
    Forall (fun d => 0 <= valueNumber d) (flattenPoints Examples.twoSeries)).
  { repeat apply Forall_cons; try apply Forall_nil; discriminate. }
  assert (Htotal : 0 < sumOfValues (flattenPoints Examples.twoSeries)).
  { reflexivity. }
  split; [exact Hnonneg|]. split; [exact Htotal|].
  exact (proj1 (proj2 (proj2 (proj2 (proj2
    (pie_angles_partition_circle Examples.twoSeries Hnonneg Htotal)))))).
Defined.


(* ------------------------------------------------------------------ *)
(** ** A map whose callback may throw *)

Lemma mapi_from_inv {A B : Type} (f : A -> nat -> Js.Completion B)
      (xs : list A) (i : nat) (ys : list B) :
  Js.mapi_from f i xs = Js.Normal ys ->
  List.length ys = List.length xs
  /\ forall j x, nth_error xs j = Some x ->
                 exists y, nth_error ys j = Some y /\ f x (i + j)%nat = Js.Normal y.
Proof.
  revert i ys. induction xs as [|x rest IH]; intros i ys; simpl.
  - intros [= <-]. split; [reflexivity|]. intros [|j] x0; discriminate.
  - destruct (f x i) as [y|e] eqn:Hy; simpl; [|discriminate].
    destruct (Js.mapi_from f (S i) rest) as [ys'|e] eqn:Hrest; simpl; [|discriminate].
    intros [= <-]. destruct (IH _ _ Hrest) as [Hlen Hnth].
    split; [simpl; now rewrite Hlen|].
    intros [|j] x0; simpl.
    + intros [= <-]. exists y. rewrite Nat.add_0_r. auto.
    + intros Hj. destruct (Hnth j x0 Hj) as (y0 & Hy0 & Hf).
      exists y0. rewrite Nat.add_succ_r. auto.
Qed.

Lemma mapi_from_total {A B : Type} (f : A -> nat -> Js.Completion B)
      (xs : list A) (i : nat) :
  (forall j x, nth_error xs j = Some x -> exists y, f x (i + j)%nat = Js.Normal y) ->
  exists ys, Js.mapi_from f i xs = Js.Normal ys.
Proof.
  revert i. induction xs as [|x rest IH]; intros i Hok; simpl.
  - now exists [].
  - destruct (Hok 0%nat x eq_refl) as [y Hy]. rewrite Nat.add_0_r in Hy.
    rewrite Hy. simpl.
    destruct (IH (S i)) as [ys Hys].
    { intros j x0 Hj. destruct (Hok (S j) x0 Hj) as [y0 Hy0].
      exists y0. now rewrite Nat.add_succ_r in Hy0. }
    rewrite Hys. simpl. now exists (y :: ys).
Qed.

(* ------------------------------------------------------------------ *)
(** ** The render *)

Lemma flattenPoints_from (series : list DataSeries) (acc : list DataPoint) :
  fold_left (fun prev s => prev ++ data s) series acc
  = acc ++ flat_map data series.
Proof.
  revert acc. induction series as [|s rest IH]; intros acc; simpl.
  - now rewrite app_nil_r.
  - now rewrite IH, app_assoc.
Qed.

Lemma flattenPoints_flat_map (series : list DataSeries) :
  flattenPoints series = flat_map data series.
Proof. unfold flattenPoints. now rewrite flattenPoints_from. Qed.

Lemma createPie_length (pts : list DataPoint) :
  List.length (createPie pts) = List.length pts.
Proof. rewrite createPie_layout. apply layout_length. Qed.

Lemma createPie_nth (pts : list DataPoint) (i : nat) (pt : DataPoint) :
  nth_error pts i = Some pt ->
  exists slice, nth_error (createPie pts) i = Some slice
                /\ D3.arc_data slice = pt.
Proof.
  intros Hpt.
  destruct (nth_error (createPie pts) i) as [slice|] eqn:Hslice.
  - exists slice. split; [reflexivity|].
    pose proof (layout_data valueNumber D3.tau pts) as Hdata.
    rewrite <- createPie_layout in Hdata.
    apply (map_nth_error D3.arc_data) in Hslice.
    rewrite Hdata, Hpt in Hslice. now injection Hslice.
  - apply nth_error_None in Hslice. rewrite createPie_length in Hslice.
    assert (i < List.length pts)%nat by (apply nth_error_Some; congruence).
    lia.
Qed.

(** [isEveryValueZero] holds when every value is a number equal to 0. *)
Lemma isEveryValueZero_true (pts : list DataPoint) :
  isEveryValueZero pts = true
  <-> Forall (fun d => exists v, value d = Some v /\ v == 0) pts.
Proof.
  unfold isEveryValueZero. rewrite forallb_forall, Forall_forall.
  split; intros Hall d Hin; specialize (Hall d Hin).
  - destruct (value d) as [v|]; [|discriminate].
    exists v. split; [reflexivity|]. now apply Qeq_bool_iff.
  - destruct Hall as (v & -> & Hv). now apply Qeq_bool_iff.
Qed.

(** The palette the chart asks for: one color per series, and at least
    one. *)
Lemma seriesCount_clamped {H : Host} (props : ChartProps H) :
  seriesCount props = Nat.max (List.length (p_data props)) 1
  /\ (1 <= seriesCount props)%nat.
Proof. unfold seriesCount, clamp. split; [reflexivity | lia]. Qed.

(** Two renders under the same theme and with the same series count ask
    [getSeriesColors] the same question, whatever else differs. *)
Lemma seriesColor_same_count {H : Host} (imports : Imports H)
      (hooks hooks' : Hooks H) (props props' : ChartProps H) :
  useTheme hooks = useTheme hooks' ->
  seriesCount props = seriesCount props' ->
  seriesColor imports hooks props = seriesColor imports hooks' props'.
Proof.
  intros Htheme Hcount. unfold seriesColor, selectedTheme.
  now rewrite Htheme, Hcount.
Qed.

Section ChartFacts.

Context {H : Host}.
Variable imports : Imports H.
Variable hooks : Hooks H.
Variable props : ChartProps H.
Variable st : LocalState.

Lemma Chart_without_size :
  r_width (legendResult imports hooks props) == 0
  \/ r_height (legendResult imports hooks props) == 0 ->
  Chart imports hooks props st
  = Js.Normal (mkRendered (colorVisionEventsArgs imports hooks props)
                          (watchArgs imports) None).
Proof.
  intros Hzero. unfold Chart.
  destruct Hzero as [Hz | Hz]; apply truthy_false in Hz; rewrite Hz; simpl.
  - reflexivity.
  - now rewrite orb_true_r.
Qed.

Lemma Chart_with_size :
  ~ r_width (legendResult imports hooks props) == 0 ->
  ~ r_height (legendResult imports hooks props) == 0 ->
  Chart imports hooks props st
  = (content <- donutContent imports hooks props st ;;
     Js.Normal
       (mkRendered (colorVisionEventsArgs imports hooks props)
          (watchArgs imports)
          (Some {| w_style := dynamicStyles imports props;
                   w_donut := content;
                   w_legend := legendContainer imports hooks props st |}))).
Proof.
  intros Hw Hh. unfold Chart.
  apply truthy_true in Hw. apply truthy_true in Hh.
  now rewrite Hw, Hh.
Qed.

(** Every render registers the same watcher. *)
Lemma Chart_watcher (rendered : Rendered H) :
  Chart imports hooks props st = Js.Normal rendered ->
  watchColorVisionEvents rendered = watchArgs imports.
Proof.
  unfold Chart.
  destruct (negb _ || negb _)%bool.
  - now intros [= <-].
  - destruct (donutContent imports hooks props st); simpl; [|discriminate].
    now intros [= <-].
Qed.

(** A rendered element comes from the sized branch. *)
Lemma Chart_element (rendered : Rendered H) (w : DonutWrapper H) :
  Chart imports hooks props st = Js.Normal rendered ->
  element rendered = Some w ->
  exists content,
    donutContent imports hooks props st = Js.Normal content
    /\ w = {| w_style := dynamicStyles imports props;
              w_donut := content;
              w_legend := legendContainer imports hooks props st |}.
Proof.
  unfold Chart.
  destruct (negb _ || negb _)%bool.
  - intros [= <-]. discriminate.
  - destruct (donutContent imports hooks props st) as [content|e]; simpl;
      [|discriminate].
    intros [= <-]. simpl. intros [= <-]. now exists content.
Qed.

Lemma renderSlice_inv (slice : D3.PieArcDatum DataPoint) (i : nat)
      (g : ArcGroup) :
  renderSlice imports hooks props st slice i = Js.Normal g ->
  exists s,
    nth_error (p_data props) i = Some s
    /\ g_ariaHidden g = false
    /\ a_index (g_arc g) = Some i
    /\ a_activeIndex (g_arc g) = Some (activeIndex st)
    /\ a_startAngle (g_arc g) = D3.startAngle slice
    /\ a_endAngle (g_arc g) = D3.endAngle slice
    /\ a_color (g_arc g)
       = match color s with
         | Some c => Some c
         | None => nth_error (seriesColor imports hooks props) i
         end.
Proof.
  unfold renderSlice, sliceName, sliceColor.
  destruct (nth_error (p_data props) i) as [s|]; simpl; [|discriminate].
  intros [= <-]. exists s. simpl. repeat split; reflexivity.
Qed.

Lemma renderSlice_ok (slice : D3.PieArcDatum DataPoint) (i : nat) :
  (i < List.length (p_data props))%nat ->
  exists g, renderSlice imports hooks props st slice i = Js.Normal g.
Proof.
  intros Hi. unfold renderSlice, sliceName.
  destruct (nth_error (p_data props) i) as [s|] eqn:Hs; simpl.
  - eauto.
  - apply nth_error_None in Hs. lia.
Qed.

(** More slices than series: the map throws at the first slice without a
    series. *)
Lemma renderSlices_throw (slices : list (D3.PieArcDatum DataPoint)) (i : nat) :
  (i <= List.length (p_data props))%nat ->
  (List.length (p_data props) < i + List.length slices)%nat ->
  Js.mapi_from (renderSlice imports hooks props st) i slices
  = Js.Throw (Js.TypeError
      "Cannot read properties of undefined (reading 'name')").
Proof.
  revert i. induction slices as [|slice rest IH]; intros i Hi Hlen; simpl in *.
  - lia.
  - unfold renderSlice at 1, sliceName.
    destruct (nth_error (p_data props) i) as [s|] eqn:Hs; simpl.
    + assert (i < List.length (p_data props))%nat
        by (apply nth_error_Some; congruence).
      rewrite IH; [reflexivity | lia | lia].
    + reflexivity.
Qed.

End ChartFacts.


(* ------------------------------------------------------------------ *)
(** ** What the chart draws *)

(** C10.  Whatever the props, the hooks and the state: if the width or the
    height returned by [useLegend] is 0, the chart returns [null]. *)
Theorem no_size_renders_nothing {H : Host} (imports : Imports H)
        (hooks : Hooks H) (props : ChartProps H) (st : LocalState) :
  r_width (legendResult imports hooks props) == 0
  \/ r_height (legendResult imports hooks props) == 0 ->
  exists rendered,
    Chart imports hooks props st = Js.Normal rendered
    /\ element rendered = None.
Proof.
  intros Hzero. eexists. split.
  - apply Chart_without_size. exact Hzero.
  - reflexivity.
Qed.

Lemma no_size_renders_nothing_witness :
  r_height (legendResult Examples.imports (Examples.hooks true)
              (Examples.chartOf Examples.twoSeries Success Examples.size0)) == 0
  /\ exists rendered,
       Chart Examples.imports (Examples.hooks true)
             (Examples.chartOf Examples.twoSeries Success Examples.size0)
             initialState = Js.Normal rendered
       /\ element rendered = None.
Proof.
  split.
  - reflexivity.
  - apply no_size_renders_nothing. right. reflexivity.
Defined.

Section Drawing.

Context {H : Host}.
Variable imports : Imports H.
Variable hooks : Hooks H.
Variable props : ChartProps H.
Variable st : LocalState.

Hypothesis success : p_state props = Success.
Hypothesis has_width : ~ r_width (legendResult imports hooks props) == 0.
Hypothesis has_height : ~ r_height (legendResult imports hooks props) == 0.
Hypothesis mounted : r_isLegendMounted (legendResult imports hooks props) = true.

(** In the success state, sized and with the legend mounted, the chart
    is the fragment whose [<svg>] holds the groups [svgGroups] computes. *)
Lemma Chart_success (groups : list ArcGroup) :
  svgGroups imports hooks props st = Js.Normal (Some groups) ->
  exists rendered w label svg inner,
    Chart imports hooks props st = Js.Normal rendered
    /\ element rendered = Some w
    /\ w_donut w = SuccessFragment label svg inner
    /\ svg_groups svg = Some groups.
Proof.
  intros Hgroups.
  rewrite (Chart_with_size imports hooks props st has_width has_height).
  unfold donutContent. rewrite success, Hgroups. simpl.
  do 5 eexists. repeat split; reflexivity.
Qed.

Lemma svgGroups_empty :
  emptyState props = true ->
  svgGroups imports hooks props st
  = Js.Normal (Some [emptyArc imports hooks props]).
Proof. intros Hempty. unfold svgGroups. now rewrite mounted, Hempty. Qed.

Lemma svgGroups_slices :
  emptyState props = false ->
  svgGroups imports hooks props st
  = (slices <- Js.mapi (renderSlice imports hooks props st) (pieChartData props) ;;
     Js.Normal (Some slices)).
Proof. intros Hempty. unfold svgGroups. now rewrite mounted, Hempty. Qed.

End Drawing.

Lemma emptyState_true {H : Host} (props : ChartProps H) :
  points props = []
  \/ Forall (fun d => exists v, value d = Some v /\ v == 0) (points props) ->
  emptyState props = true.
Proof.
  intros [Hnil | Hzero]; unfold emptyState.
  - unfold pieChartData. rewrite createPie_length, Hnil. reflexivity.
  - apply isEveryValueZero_true in Hzero. rewrite Hzero. apply orb_true_r.
Qed.

Lemma emptyState_false {H : Host} (props : ChartProps H) :
  points props <> [] ->
  ~ Forall (fun d => exists v, value d = Some v /\ v == 0) (points props) ->
  emptyState props = false.
Proof.
  intros Hne Hnz. unfold emptyState. apply orb_false_iff. split.
  - unfold pieChartData. rewrite createPie_length.
    destruct (points props); [contradiction | reflexivity].
  - destruct (isEveryValueZero (points props)) eqn:E; [|reflexivity].
    apply isEveryValueZero_true in E. contradiction.
Qed.

(** C9, amended.  In the success state, with a non-zero width and height
    from [useLegend] and the legend mounted: if the flattened points are
    empty, or every point's value equals 0, the chart draws exactly one
    group, an aria-hidden placeholder arc from 0 to [FULL_CIRCLE] in the
    theme's grid color, and no data slice. *)
Theorem empty_state_placeholder {H : Host} (imports : Imports H)
        (hooks : Hooks H) (props : ChartProps H) (st : LocalState) :
  p_state props = Success ->
  ~ r_width (legendResult imports hooks props) == 0 ->
  ~ r_height (legendResult imports hooks props) == 0 ->
  r_isLegendMounted (legendResult imports hooks props) = true ->
  points props = []
  \/ Forall (fun d => exists v, value d = Some v /\ v == 0) (points props) ->
  exists rendered w label svg inner g,
    Chart imports hooks props st = Js.Normal rendered
    /\ element rendered = Some w
    /\ w_donut w = SuccessFragment label svg inner
    /\ svg_groups svg = Some [g]
    /\ g_ariaHidden g = true
    /\ isSlice g = false
    /\ a_startAngle (g_arc g) = 0
    /\ a_endAngle (g_arc g) = FULL_CIRCLE
    /\ a_color (g_arc g) = Some (Solid (grid_color (grid (useTheme hooks)))).
Proof.
  intros Hsuccess Hw Hh Hmounted Hempty.
  apply emptyState_true in Hempty.
  destruct (Chart_success imports hooks props st Hsuccess Hw Hh
              [emptyArc imports hooks props])
    as (rendered & w & label & svg & inner & Hchart & Helt & Hdonut & Hgroups).
  { now apply svgGroups_empty. }
  exists rendered, w, label, svg, inner, (emptyArc imports hooks props).
  repeat split; assumption || reflexivity.
Qed.

Lemma empty_state_placeholder_witness :
  exists rendered w label svg inner g,
    Chart Examples.imports (Examples.hooks true)
          (Examples.chartOf [] Success Examples.size200) initialState
    = Js.Normal rendered
    /\ element rendered = Some w
    /\ w_donut w = SuccessFragment label svg inner
    /\ svg_groups svg = Some [g]
    /\ g_ariaHidden g = true
    /\ isSlice g = false
    /\ a_startAngle (g_arc g) = 0
    /\ a_endAngle (g_arc g) = FULL_CIRCLE
    /\ a_color (g_arc g) = Some (Solid "#eeeeef").
Proof.
  apply (empty_state_placeholder Examples.imports (Examples.hooks true)
           (Examples.chartOf [] Success Examples.size200) initialState).
  - reflexivity.
  - discriminate.
  - discriminate.
  - reflexivity.
  - left. reflexivity.
Defined.

(** C9 as stated fails: with no data and the chart still loading, the
    chart draws the skeleton and no arc at all. *)
Lemma empty_data_while_loading_draws_no_arc :
  points (Examples.chartOf [] Loading Examples.size200) = []
  /\ exists rendered w skeleton,
       Chart Examples.imports (Examples.hooks true)
             (Examples.chartOf [] Loading Examples.size200) initialState
       = Js.Normal rendered
       /\ element rendered = Some w
       /\ w_donut w = Skeleton skeleton
       /\ groupsOf w = [].
Proof.
  split; [reflexivity|].
  do 3 eexists. repeat split; reflexivity.
Qed.


(** C6, amended.  In the success state, with a non-zero width and height
    from [useLegend], the legend mounted, a non-empty, not-all-zero data set
    and no more flattened points than series: the chart draws exactly one
    arc per flattened point, in order; the arc of the point at position [i]
    carries the start and end angle the pie computed for that point, and is
    colored with the color of the series at position [i] when that series
    sets one, otherwise with the theme series color at position [i]. *)
Theorem one_arc_per_point {H : Host} (imports : Imports H)
        (hooks : Hooks H) (props : ChartProps H) (st : LocalState) :
  p_state props = Success ->
  ~ r_width (legendResult imports hooks props) == 0 ->
  ~ r_height (legendResult imports hooks props) == 0 ->
  r_isLegendMounted (legendResult imports hooks props) = true ->
  points props <> [] ->
  ~ Forall (fun d => exists v, value d = Some v /\ v == 0) (points props) ->
  (List.length (points props) <= List.length (p_data props))%nat ->
  exists rendered w label svg inner groups,
    Chart imports hooks props st = Js.Normal rendered
    /\ element rendered = Some w
    /\ w_donut w = SuccessFragment label svg inner
    /\ svg_groups svg = Some groups
    /\ List.length groups = List.length (points props)
    /\ forall i pt,
         nth_error (points props) i = Some pt ->
         exists slice s g,
           nth_error (createPie (points props)) i = Some slice
           /\ D3.arc_data slice = pt
           /\ nth_error (p_data props) i = Some s
           /\ nth_error groups i = Some g
           /\ a_index (g_arc g) = Some i
           /\ a_startAngle (g_arc g) = D3.startAngle slice
           /\ a_endAngle (g_arc g) = D3.endAngle slice
           /\ a_color (g_arc g)
              = match color s with
                | Some c => Some c
                | None => nth_error (getSeriesColors imports
                                       (Nat.max (List.length (p_data props)) 1)
                                       (useTheme hooks)) i
                end.
Proof.
  intros Hsuccess Hw Hh Hmounted Hne Hnz Hfits.
  pose proof (emptyState_false props Hne Hnz) as Hempty.
  destruct (mapi_from_total (renderSlice imports hooks props st)
              (pieChartData props) 0) as [groups Hmap].
  { intros j slice Hj. apply renderSlice_ok.
    assert (j < List.length (pieChartData props))%nat
      by (apply nth_error_Some; congruence).
    unfold pieChartData in *. rewrite createPie_length in *. simpl. lia. }
  destruct (Chart_success imports hooks props st Hsuccess Hw Hh groups)
    as (rendered & w & label & svg & inner & Hchart & Helt & Hdonut & Hgroups).
  { rewrite svgGroups_slices by assumption. unfold Js.mapi. now rewrite Hmap. }
  exists rendered, w, label, svg, inner, groups.
  destruct (mapi_from_inv _ _ _ _ Hmap) as [Hlen Hnth].
  repeat (split; [assumption|]). split.
  - rewrite Hlen. apply createPie_length.
  - intros i pt Hpt.
    destruct (createPie_nth _ _ _ Hpt) as (slice & Hslice & Hdata).
    destruct (Hnth i slice Hslice) as (g & Hg & Hrender).
    destruct (renderSlice_inv _ _ _ _ _ _ _ Hrender)
      as (s & Hs & _ & Hindex & _ & Hstart & Hend & Hcolor).
    exists slice, s, g. repeat (split; [assumption|]). exact Hcolor.
Qed.

Lemma one_arc_per_point_witness :
  exists rendered w label svg inner groups,
    Chart Examples.imports (Examples.hooks true)
          (Examples.chartOf Examples.twoSeries Success Examples.size200)
          initialState = Js.Normal rendered
    /\ element rendered = Some w
    /\ w_donut w = SuccessFragment label svg inner
    /\ svg_groups svg = Some groups
    /\ List.length groups = 2%nat.
Proof.
  destruct (one_arc_per_point Examples.imports (Examples.hooks true)
              (Examples.chartOf Examples.twoSeries Success Examples.size200)
              initialState)
    as (rendered & w & label & svg & inner & groups & Hchart & Helt & Hdonut
        & Hgroups & Hlen & _).
  - reflexivity.
  - discriminate.
  - discriminate.
  - reflexivity.
  - discriminate.
  - intros Hzero. inversion Hzero as [|d rest (v & Hv & Hv0) _].
    injection Hv as <-. discriminate Hv0.
  - simpl. lia.
  - exists rendered, w, label, svg, inner, groups. auto.
Defined.

(** C6 as stated fails: a successful chart with two non-zero points draws
    no arc while the legend is not mounted. *)
Lemma no_arc_before_legend_mounts :
  p_state (Examples.chartOf Examples.twoSeries Success Examples.size200) = Success
  /\ List.length
       (points (Examples.chartOf Examples.twoSeries Success Examples.size200))
     = 2%nat
  /\ isEveryValueZero
       (points (Examples.chartOf Examples.twoSeries Success Examples.size200))
     = false
  /\ exists rendered w label svg inner,
       Chart Examples.imports (Examples.hooks false)
             (Examples.chartOf Examples.twoSeries Success Examples.size200)
             initialState = Js.Normal rendered
       /\ element rendered = Some w
       /\ w_donut w = SuccessFragment label svg inner
       /\ svg_groups svg = None
       /\ groupsOf w = [].
Proof.
  repeat (split; [reflexivity|]).
  do 5 eexists. repeat split; reflexivity.
Qed.

(** With more flattened points than series the render does not complete:
    the slice callback reads [name] of a series that is not there. *)
Lemma more_points_than_series_throws {H : Host} (imports : Imports H)
      (hooks : Hooks H) (props : ChartProps H) (st : LocalState) :
  p_state props = Success ->
  ~ r_width (legendResult imports hooks props) == 0 ->
  ~ r_height (legendResult imports hooks props) == 0 ->
  r_isLegendMounted (legendResult imports hooks props) = true ->
  emptyState props = false ->
  (List.length (p_data props) < List.length (points props))%nat ->
  Chart imports hooks props st
  = Js.Throw (Js.TypeError
      "Cannot read properties of undefined (reading 'name')").
Proof.
  intros Hsuccess Hw Hh Hmounted Hempty Hmore.
  rewrite (Chart_with_size imports hooks props st Hw Hh).
  unfold donutContent. rewrite Hsuccess. simpl.
  rewrite svgGroups_slices by assumption.
  unfold Js.mapi. rewrite renderSlices_throw; [reflexivity | lia |].
  unfold pieChartData. rewrite createPie_length. simpl. exact Hmore.
Qed.

(** C8.  The code at a series with two points: the pie has a slice at
    index 1, the series array has no entry there, and the render throws. *)
Theorem second_point_of_a_series_throws :
  let props := Examples.chartOf Examples.oneSeriesTwoPoints Success
                 Examples.size200 in
  List.length (pieChartData props) = 2%nat
  /\ nth_error (p_data props) 1 = None
  /\ Chart Examples.imports (Examples.hooks true) props initialState
     = Js.Throw (Js.TypeError
         "Cannot read properties of undefined (reading 'name')").
Proof.
  repeat split; reflexivity.
Qed.


(* ------------------------------------------------------------------ *)
(** ** The active index *)

Section Highlight.

Context {H : Host}.
Variable imports : Imports H.
Variable hooks : Hooks H.
Variable props : ChartProps H.
Variable st : LocalState.

Lemma svgGroups_activeIndex (groups : list ArcGroup) (g : ArcGroup) :
  svgGroups imports hooks props st = Js.Normal (Some groups) ->
  In g groups -> isSlice g = true ->
  a_activeIndex (g_arc g) = Some (activeIndex st).
Proof.
  unfold svgGroups.
  destruct (r_isLegendMounted _); [|discriminate].
  destruct (emptyState props).
  - intros [= <-] [<- | []]. discriminate.
  - unfold Js.mapi.
    destruct (Js.mapi_from _ 0 (pieChartData props)) as [slices|e] eqn:Hmap;
      simpl; [|discriminate].
    intros [= <-] Hin _.
    destruct (mapi_from_inv _ _ _ _ Hmap) as [Hlen Hnth].
    destruct (In_nth_error _ _ Hin) as [j Hj].
    assert (Hlt : (j < List.length (pieChartData props))%nat).
    { rewrite <- Hlen. apply nth_error_Some. congruence. }
    destruct (nth_error (pieChartData props) j) as [slice|] eqn:Hslice;
      [|apply nth_error_None in Hslice; lia].
    destruct (Hnth j slice Hslice) as (g' & Hg' & Hrender).
    rewrite Hj in Hg'. injection Hg' as <-.
    destruct (renderSlice_inv _ _ _ _ _ _ _ Hrender)
      as (s & _ & _ & _ & Hactive & _).
    exact Hactive.
Qed.

(** One render hands one active index to everything it draws. *)
Lemma Chart_highlights (rendered : Rendered H) (w : DonutWrapper H) :
  Chart imports hooks props st = Js.Normal rendered ->
  element rendered = Some w ->
  highlights w (activeIndex st).
Proof.
  intros Hchart Helt.
  destruct (Chart_element _ _ _ _ _ _ Hchart Helt) as (content & Hcontent & ->).
  unfold highlights, groupsOf. simpl.
  unfold donutContent in Hcontent.
  destruct (ChartState_eqb (p_state props) Success).
  - destruct (svgGroups imports hooks props st) as [groups|e] eqn:Hgroups;
      simpl in Hcontent; [|discriminate].
    injection Hcontent as <-. simpl. repeat split.
    + destruct groups as [groups|]; [|intros g []].
      intros g. now apply svgGroups_activeIndex with (groups := groups).
    + now intros label svg inner [= _ _ <-].
    + unfold legendContainer. destruct (p_showLegend props); [|discriminate].
      intros legend render methods [= <-]. simpl.
      destruct (shouldRenderLegendContentWithValues props).
      * now intros [= <-].
      * destruct (p_renderLegendContent props); discriminate.
  - injection Hcontent as <-. simpl. repeat split.
    + intros g [].
    + discriminate.
    + unfold legendContainer. destruct (p_showLegend props); [|discriminate].
      intros legend render methods [= <-]. simpl.
      destruct (shouldRenderLegendContentWithValues props).
      * now intros [= <-].
      * destruct (p_renderLegendContent props); discriminate.
Qed.

End Highlight.

(* ------------------------------------------------------------------ *)
(** ** The legend *)

(** Whenever the chart renders an element: the size of what it draws is
    the smaller of the height and the width [useLegend] returned; and a
    legend container is rendered exactly when [showLegend] is true, with
    [useLegend]'s [setLegendDimensions] as its [onDimensionChange] handler
    and [useLegend]'s legend items as its data. *)
Lemma legend_wiring {H : Host} (imports : Imports H)
        (hooks : Hooks H) (props : ChartProps H) (st : LocalState)
        (rendered : Rendered H) (w : DonutWrapper H) :
  Chart imports hooks props st = Js.Normal rendered ->
  element rendered = Some w ->
  let negotiated := useLegend hooks (useLegendArgs imports hooks props) in
  let side := Js.Math_min (r_height negotiated) (r_width negotiated) in
  (forall label svg inner,
      w_donut w = SuccessFragment label svg inner ->
      svg_height svg = side /\ svg_width svg = side /\ iv_diameter inner = side)
  /\ (forall skeleton,
        w_donut w = Skeleton skeleton ->
        sk_dimensions skeleton = mkDimensions side side)
  /\ (p_showLegend props = true ->
      exists legend,
        w_legend w = Some legend
        /\ lc_onDimensionChange legend = r_setLegendDimensions negotiated
        /\ lc_data legend = r_legend negotiated)
  /\ (p_showLegend props = false -> w_legend w = None).
Proof.
  intros Hchart Helt negotiated side.
  destruct (Chart_element _ _ _ _ _ _ Hchart Helt) as (content & Hcontent & ->).
  simpl. unfold donutContent in Hcontent.
  split; [|split; [|split]].
  - intros label svg inner Hdonut.
    destruct (ChartState_eqb (p_state props) Success).
    + destruct (svgGroups imports hooks props st); simpl in Hcontent;
        [|discriminate].
      injection Hcontent as <-. injection Hdonut as _ <- <-.
      repeat split; reflexivity.
    + injection Hcontent as <-. discriminate.
  - intros skeleton Hdonut.
    destruct (ChartState_eqb (p_state props) Success).
    + destruct (svgGroups imports hooks props st); simpl in Hcontent;
        [|discriminate].
      injection Hcontent as <-. discriminate.
    + injection Hcontent as <-. injection Hdonut as <-. reflexivity.
  - intros Hshow. unfold legendContainer. rewrite Hshow.
    eexists. repeat split; reflexivity.
  - intros Hshow. unfold legendContainer. now rewrite Hshow.
Qed.

(* ------------------------------------------------------------------ *)
(** ** The tooltip *)

Lemma mapEntries_length {C L : Type} (entries : list (Tooltip.TooltipData C L))
      (i : nat) :
  List.length (Tooltip.mapEntries i entries) = List.length entries.
Proof.
  revert i. induction entries as [|entry rest IH]; intros i; simpl.
  - reflexivity.
  - now rewrite IH.
Qed.

Lemma mapEntries_nth {C L : Type} (entries : list (Tooltip.TooltipData C L))
      (i j : nat) (entry : Tooltip.TooltipData C L) :
  nth_error entries j = Some entry ->
  nth_error (Tooltip.mapEntries i entries) j
  = Some (Tooltip.renderEntry entry (i + j)).
Proof.
  revert i j. induction entries as [|e rest IH]; intros i [|j]; simpl;
    try discriminate.
  - intros [= <-]. now rewrite Nat.add_0_r.
  - intros Hj. rewrite (IH (S i) j Hj). now rewrite Nat.add_succ_r.
Qed.

Lemma mapEntries_shown {C L : Type} (entries : list (Tooltip.TooltipData C L))
      (i : nat) :
  map Tooltip.shown (Tooltip.mapEntries i entries)
  = map Tooltip.fieldsOf entries.
Proof.
  revert i. induction entries as [|entry rest IH]; intros i; simpl.
  - reflexivity.
  - now rewrite IH.
Qed.

(** C7.  [TooltipContent] renders one group per entry, in input order; the
    group of the entry at position [i] is made of that entry's fields (its
    color and line style in the line preview, its label, its value) and is
    keyed by its name and [i]; what the groups show is a function of those
    fields alone, and equal inputs render equal output. *)
Theorem tooltip_content_one_group_per_entry {C L : Type}
        (entries : list (Tooltip.TooltipData C L)) :
  let groups := Tooltip.children (Tooltip.TooltipContent entries) in
  List.length groups = List.length entries
  /\ map Tooltip.shown groups = map Tooltip.fieldsOf entries
  /\ (forall i entry,
        nth_error entries i = Some entry ->
        nth_error groups i
        = Some {| Tooltip.group_key :=
                    (Tooltip.name entry ++ "-" ++ Js.indexToString i)%string;
                  Tooltip.linePreview :=
                    Tooltip.mkLinePreviewProps (Tooltip.color entry)
                                               (Tooltip.lineStyle entry);
                  Tooltip.nameParagraph := Tooltip.label (Tooltip.point entry);
                  Tooltip.valueParagraph := Tooltip.value (Tooltip.point entry) |})
  /\ (forall entries' : list (Tooltip.TooltipData C L),
        map Tooltip.fieldsOf entries' = map Tooltip.fieldsOf entries ->
        map Tooltip.shown (Tooltip.children (Tooltip.TooltipContent entries'))
        = map Tooltip.shown groups)
  /\ (forall entries' : list (Tooltip.TooltipData C L),
        entries' = entries ->
        Tooltip.TooltipContent entries' = Tooltip.TooltipContent entries).
Proof.
  intros groups. subst groups. simpl. repeat split.
  - apply mapEntries_length.
  - apply mapEntries_shown.
  - intros i entry Hentry. now rewrite (mapEntries_nth _ 0 i entry Hentry).
  - intros entries' Hfields. now rewrite !mapEntries_shown.
  - now intros entries' ->.
Qed.


(* ------------------------------------------------------------------ *)
(** ** Further properties of the render *)

Lemma ChartState_eqb_Success (s : ChartState) :
  ChartState_eqb s Success = true <-> s = Success.
Proof. destruct s; simpl; split; intros; congruence. Qed.

Lemma pieChartData_length {H : Host} (props : ChartProps H) :
  List.length (pieChartData props) = List.length (points props).
Proof. apply createPie_length. Qed.

Section RenderOutcome.

Context {H : Host}.
Variable imports : Imports H.
Variable hooks : Hooks H.
Variable props : ChartProps H.
Variable st : LocalState.

(** With a series behind every point the slice map completes. *)
Lemma renderSlices_complete :
  (List.length (points props) <= List.length (p_data props))%nat ->
  exists groups,
    Js.mapi (renderSlice imports hooks props st) (pieChartData props)
    = Js.Normal groups.
Proof.
  intros Hfits. apply mapi_from_total. intros j slice Hj.
  apply renderSlice_ok.
  assert (j < List.length (pieChartData props))%nat
    by (apply nth_error_Some; congruence).
  rewrite pieChartData_length in *. simpl. lia.
Qed.

Lemma svgGroups_throw (e : Js.Error) :
  svgGroups imports hooks props st = Js.Throw e ->
  r_isLegendMounted (legendResult imports hooks props) = true
  /\ emptyState props = false
  /\ (List.length (p_data props) < List.length (points props))%nat.
Proof.
  unfold svgGroups.
  destruct (r_isLegendMounted _); [|discriminate].
  destruct (emptyState props); [discriminate|].
  intros Hthrow. repeat split.
  destruct (Nat.lt_ge_cases (List.length (p_data props))
                            (List.length (points props))) as [Hlt | Hge];
    [exact Hlt|].
  destruct (renderSlices_complete Hge) as [groups Hgroups].
  rewrite Hgroups in Hthrow. discriminate.
Qed.

Lemma donutContent_throw (e : Js.Error) :
  donutContent imports hooks props st = Js.Throw e ->
  p_state props = Success /\ svgGroups imports hooks props st = Js.Throw e.
Proof.
  unfold donutContent.
  destruct (ChartState_eqb (p_state props) Success) eqn:Hstate; [|discriminate].
  apply ChartState_eqb_Success in Hstate.
  destruct (svgGroups imports hooks props st); simpl; [discriminate|].
  intros [= <-]. auto.
Qed.

Lemma Chart_throw (e : Js.Error) :
  Chart imports hooks props st = Js.Throw e ->
  ~ r_width (legendResult imports hooks props) == 0
  /\ ~ r_height (legendResult imports hooks props) == 0
  /\ donutContent imports hooks props st = Js.Throw e.
Proof.
  unfold Chart.
  destruct (Js.truthy (r_width _)) eqn:Hw; simpl; [|discriminate].
  destruct (Js.truthy (r_height _)) eqn:Hh; simpl; [|discriminate].
  apply truthy_true in Hw. apply truthy_true in Hh.
  destruct (donutContent imports hooks props st); simpl; [discriminate|].
  intros [= <-]. auto.
Qed.

End RenderOutcome.

(** The only way for a render to throw. *)
Lemma Chart_throw_inv {H : Host} (imports : Imports H)
      (hooks : Hooks H) (props : ChartProps H) (st : LocalState)
      (e : Js.Error) :
  Chart imports hooks props st = Js.Throw e ->
  p_state props = Success
  /\ ~ r_width (legendResult imports hooks props) == 0
  /\ ~ r_height (legendResult imports hooks props) == 0
  /\ r_isLegendMounted (legendResult imports hooks props) = true
  /\ emptyState props = false
  /\ (List.length (p_data props) < List.length (points props))%nat.
Proof.
  intros Hthrow.
  destruct (Chart_throw _ _ _ _ _ Hthrow) as (Hw & Hh & Hcontent).
  destruct (donutContent_throw _ _ _ _ _ Hcontent) as (Hstate & Hgroups).
  destruct (svgGroups_throw _ _ _ _ _ Hgroups) as (Hmounted & Hempty & Hmore).
  auto 10.
Qed.

(** X1.  A render throws exactly when all of these hold: the state is
    Success, the width and height from [useLegend] are non-zero, the legend
    is mounted, the data is not in the empty state, and there are more
    flattened points than series.  The error is then always the TypeError of
    reading [name] of an undefined series; in every other case the render
    completes. *)
Theorem render_throws_exactly_when {H : Host} (imports : Imports H)
        (hooks : Hooks H) (props : ChartProps H) (st : LocalState) :
  ((exists e, Chart imports hooks props st = Js.Throw e)
   <-> p_state props = Success
       /\ ~ r_width (legendResult imports hooks props) == 0
       /\ ~ r_height (legendResult imports hooks props) == 0
       /\ r_isLegendMounted (legendResult imports hooks props) = true
       /\ emptyState props = false
       /\ (List.length (p_data props) < List.length (points props))%nat)
  /\ forall e, Chart imports hooks props st = Js.Throw e ->
               e = Js.TypeError
                     "Cannot read properties of undefined (reading 'name')".
Proof.
  split; [split|].
  - intros [e Hthrow]. exact (Chart_throw_inv _ _ _ _ _ Hthrow).
  - intros (Hstate & Hw & Hh & Hmounted & Hempty & Hmore).
    eexists. now apply more_points_than_series_throws.
  - intros e Hthrow.
    destruct (Chart_throw_inv _ _ _ _ _ Hthrow)
      as (Hstate & Hw & Hh & Hmounted & Hempty & Hmore).
    rewrite (more_points_than_series_throws imports hooks props st
               Hstate Hw Hh Hmounted Hempty Hmore) in Hthrow.
    now injection Hthrow.
Qed.

(** X3.  While the state is not Success (loading or error) and the chart
    has a size, the render completes whatever the data: it shows the
    ChartSkeleton, a square whose side is the smaller of the negotiated
    height and width, with the caller's state, error text and theme, and it
    draws no arc. *)
Theorem not_success_renders_skeleton {H : Host} (imports : Imports H)
        (hooks : Hooks H) (props : ChartProps H) (st : LocalState) :
  p_state props <> Success ->
  ~ r_width (legendResult imports hooks props) == 0 ->
  ~ r_height (legendResult imports hooks props) == 0 ->
  let side := Js.Math_min (r_height (legendResult imports hooks props))
                          (r_width (legendResult imports hooks props)) in
  exists rendered w,
    Chart imports hooks props st = Js.Normal rendered
    /\ element rendered = Some w
    /\ w_donut w
       = Skeleton {| sk_dimensions := mkDimensions side side;
                     sk_state := p_state props;
                     sk_type := "Donut";
                     sk_errorText := p_errorText props;
                     sk_theme := p_theme props |}
    /\ groupsOf w = [].
Proof.
  intros Hstate Hw Hh side.
  rewrite (Chart_with_size imports hooks props st Hw Hh).
  unfold donutContent.
  destruct (ChartState_eqb (p_state props) Success) eqn:E.
  - apply ChartState_eqb_Success in E. contradiction.
  - simpl. do 2 eexists. repeat split; reflexivity.
Qed.



Lemma not_success_renders_skeleton_witness :
  exists rendered w,
    Chart Examples.imports (Examples.hooks true)
          (Examples.chartOf Examples.oneSeriesTwoPoints Loading Examples.size200)
          initialState = Js.Normal rendered
    /\ element rendered = Some w
    /\ groupsOf w = [].
Proof.
  destruct (not_success_renders_skeleton Examples.imports (Examples.hooks true)
              (Examples.chartOf Examples.oneSeriesTwoPoints Loading
                 Examples.size200) initialState)
    as (rendered & w & Hchart & Helt & _ & Hgroups).
  - discriminate.
  - discriminate.
  - discriminate.
  - exists rendered, w. auto.
Defined.

Lemma partitions_le (lo : Q) (spans : list (Q * Q)) (hi : Q) :
  partitions lo spans hi -> lo <= hi.
Proof.
  revert lo. induction spans as [|[s e] rest IH]; intros lo; simpl.
  - intros ->. lra.
  - intros (Hs & Hle & Hrest). specialize (IH _ Hrest). lra.
Qed.

Lemma partitions_within (lo : Q) (spans : list (Q * Q)) (hi : Q) :
  partitions lo spans hi ->
  Forall (fun se => lo <= fst se /\ snd se <= hi) spans.
Proof.
  revert lo. induction spans as [|[s e] rest IH]; intros lo; simpl.
  - constructor.
  - intros (Hs & Hle & Hrest). constructor.
    + simpl. pose proof (partitions_le _ _ _ Hrest). lra.
    + eapply Forall_impl; [|apply (IH _ Hrest)].
      intros [s' e']. simpl. lra.
Qed.

Lemma Qsum_nonneg (vs : list Q) :
  Forall (fun v => 0 <= v) vs -> 0 <= Qsum vs.
Proof.
  induction 1 as [|v rest Hv _ IH]; simpl; lra.
Qed.

Lemma positive_sum_positive {D : Type} (valueOf : D -> Q) (ds : list D) :
  Exists (fun d => 0 < valueOf d) ds -> 0 < D3.positive_sum valueOf ds.
Proof.
  intros Hex. rewrite positive_sum_Qsum.
  induction Hex as [d rest Hd | d rest _ IH]; simpl.
  - assert (0 <= Qsum (map (fun d => positivePart (valueOf d)) rest)).
    { apply Qsum_nonneg. rewrite Forall_map. apply Forall_forall.
      intros; apply positivePart_nonneg. }
    rewrite positivePart_of_nonneg by lra. lra.
  - pose proof (positivePart_nonneg (valueOf d)). lra.
Qed.

Lemma positivePart_of_nonpos (v : Q) : v <= 0 -> positivePart v = 0.
Proof.
  intros Hv. unfold positivePart.
  destruct (Js.gt v 0) eqn:E; [|reflexivity].
  apply gt_true in E. lra.
Qed.

Lemma positive_sum_without_positive {D : Type} (valueOf : D -> Q) (ds : list D) :
  Forall (fun d => valueOf d <= 0) ds -> D3.positive_sum valueOf ds = 0.
Proof.
  intros Hall. unfold D3.positive_sum.
  enough (Hacc : forall acc,
    fold_left (fun sum d => if Js.gt (valueOf d) 0 then sum + valueOf d else sum)
              ds acc = acc) by apply Hacc.
  induction Hall as [|d rest Hd _ IH]; intros acc; simpl.
  - reflexivity.
  - apply gt_false in Hd. rewrite Hd. apply IH.
Qed.

Lemma arcs_from_collapsed {D : Type} (valueOf : D -> Q) (pa p a0 : Q) (i : nat)
      (ds : list D) :
  pa == 0 -> a0 == 0 ->
  Forall (fun a => D3.startAngle a == 0 /\ D3.endAngle a == 0)
         (D3.arcs_from valueOf 0 pa p a0 i ds).
Proof.
  intros Hpa. revert a0 i.
  induction ds as [|d rest IH]; intros a0 i Ha0; simpl.
  - constructor.
  - assert (Ha1 : a0 + (if Js.gt (valueOf d) 0 then valueOf d * 0 else 0) + pa == 0).
    { destruct (Js.gt (valueOf d) 0); rewrite Ha0, Hpa; ring. }
    constructor; [simpl; auto | apply IH; exact Ha1].
Qed.

(** X4.  Whenever some point has a positive value, whatever the other
    values are: the slices tile [[0, FULL_CIRCLE]] in input order, every
    angle lies in that interval, a slice's span is the positive part of its
    value times [FULL_CIRCLE] over the sum of the positive parts, and a point
    whose value is missing, zero or negative gets an empty slice. *)
Theorem pie_shares_circle_among_positive_values (pts : list DataPoint) :
  Exists (fun d => 0 < valueNumber d) pts ->
  let slices := createPie pts in
  let total := Qsum (map (fun d => positivePart (valueNumber d)) pts) in
  partitions 0 (map angles slices) FULL_CIRCLE
  /\ Forall (fun a => 0 <= D3.startAngle a /\ D3.endAngle a <= FULL_CIRCLE) slices
  /\ Forall (fun a => D3.endAngle a - D3.startAngle a
                      == positivePart (valueNumber (D3.arc_data a))
                         * (FULL_CIRCLE / total)) slices
  /\ Forall (fun a => valueNumber (D3.arc_data a) <= 0 ->
                      D3.endAngle a == D3.startAngle a) slices.
Proof.
  intros Hex slices total. subst slices total.
  rewrite createPie_layout.
  pose proof (positive_sum_positive valueNumber pts Hex) as Hpos.
  pose proof (layout_partitions valueNumber D3.tau tau_nonneg pts Hpos) as Hpart.
  pose proof (layout_span valueNumber D3.tau tau_nonneg pts Hpos) as Hspan.
  assert (Hpart' : partitions 0
            (map angles (D3.layout D3.tau 0 D3.tau 0 valueNumber pts)) FULL_CIRCLE).
  { apply partitions_hi with (hi := D3.tau); [|exact Hpart].
    symmetry. apply FULL_CIRCLE_tau. }
  split; [exact Hpart'|]. split; [|split].
  - apply partitions_within in Hpart'. rewrite Forall_map in Hpart'. exact Hpart'.
  - eapply Forall_impl; [|exact Hspan].
    intros a Ha. cbv beta in Ha.
    rewrite Ha, FULL_CIRCLE_tau, positive_sum_Qsum. reflexivity.
  - eapply Forall_impl; [|exact Hspan].
    intros a Ha Hv. cbv beta in Ha.
    rewrite (positivePart_of_nonpos _ Hv) in Ha. lra.
Qed.

Lemma pie_shares_circle_among_positive_values_witness :
  Exists (fun d => 0 < valueNumber d) MoreExamples.mixedPoints
  /\ partitions 0 (map angles (createPie MoreExamples.mixedPoints)) FULL_CIRCLE.
Proof.
  assert (Hex : Exists (fun d => 0 < valueNumber d) MoreExamples.mixedPoints).
  { apply Exists_cons_hd. reflexivity. }
  split; [exact Hex|].
  exact (proj1 (pie_shares_circle_among_positive_values _ Hex)).
Defined.

(** Without a positive value the generator's factor is 0 and every slice
    collapses onto angle 0. *)
Lemma createPie_collapsed (pts : list DataPoint) :
  Forall (fun d => valueNumber d <= 0) pts ->
  List.length (createPie pts) = List.length pts
  /\ Forall (fun a => D3.startAngle a == 0 /\ D3.endAngle a == 0) (createPie pts).
Proof.
  intros Hall. split; [apply createPie_length|].
  rewrite createPie_layout. unfold D3.layout.
  rewrite (positive_sum_without_positive valueNumber pts Hall).
  change (Js.truthy 0) with false. cbv iota.
  apply arcs_from_collapsed; [|reflexivity].
  rewrite layout_p.
  - ring.
  - change 0 with (inject_Z 0). rewrite <- Zle_Qle. lia.
Qed.

(* ------------------------------------------------------------------ *)
(** ** Keys *)

Lemma append_inj_l (p a b : string) : (p ++ a = p ++ b)%string -> a = b.
Proof.
  induction p as [|c p IH]; simpl.
  - auto.
  - intros [= Heq]. auto.
Qed.

Lemma to_uint_not_Nil (n : nat) : Nat.to_uint n <> Decimal.Nil.
Proof.
  intros Hnil. pose proof (Unsigned.of_to n) as Hn.
  rewrite Hnil in Hn. simpl in Hn. subst n. discriminate Hnil.
Qed.

Lemma indexToString_inj (i j : nat) :
  Js.indexToString i = Js.indexToString j -> i = j.
Proof.
  unfold Js.indexToString. intros Heq.
  apply (f_equal NilZero.uint_of_string) in Heq.
  rewrite !NilZero.usu in Heq by apply to_uint_not_Nil.
  injection Heq as Heq. apply (f_equal Nat.of_uint) in Heq.
  now rewrite !Unsigned.of_to in Heq.
Qed.

Section Groups.

Context {H : Host}.
Variable imports : Imports H.
Variable hooks : Hooks H.
Variable props : ChartProps H.
Variable st : LocalState.

(** What the slice callback returns when the series is there. *)
Lemma renderSlice_eq (slice : D3.PieArcDatum DataPoint) (i : nat)
      (s : DataSeries) :
  nth_error (p_data props) i = Some s ->
  renderSlice imports hooks props st slice i
  = Js.Normal
      {| g_key := Some (chartId hooks ++ "-arc-" ++ Js.indexToString i)%string;
         g_ariaHidden := false;
         g_ariaLabel :=
           Some (nameToString (name s) ++ ": "
                   ++ keyToString imports (key (D3.arc_data slice)) ++ " - "
                   ++ valueToString imports (value (D3.arc_data slice)))%string;
         g_role := Some "img"%string;
         g_arc :=
           {| a_isAnimated := shouldAnimate hooks;
              a_animationDelay :=
                Some (getAnimationDelayForItems imports
                        (List.length (pieChartData props)));
              a_index := Some i;
              a_activeIndex := Some (activeIndex st);
              a_width := diameter imports hooks props;
              a_height := diameter imports hooks props;
              a_radius := radius imports hooks props;
              a_startAngle := D3.startAngle slice;
              a_endAngle := D3.endAngle slice;
              a_color := sliceColor imports hooks props i;
              a_cornerRadius := theme_cornerRadius (arc (selectedTheme hooks));
              a_thickness := thickness imports hooks props |} |}.
Proof.
  intros Hs. unfold renderSlice, sliceName. now rewrite Hs.
Qed.

(** The groups of a completed slice map, position by position. *)
Lemma slices_nth (groups : list ArcGroup) (i : nat) (g : ArcGroup) :
  Js.mapi (renderSlice imports hooks props st) (pieChartData props)
  = Js.Normal groups ->
  nth_error groups i = Some g ->
  exists slice s pt,
    nth_error (pieChartData props) i = Some slice
    /\ nth_error (points props) i = Some pt
    /\ D3.arc_data slice = pt
    /\ nth_error (p_data props) i = Some s
    /\ renderSlice imports hooks props st slice i = Js.Normal g.
Proof.
  intros Hmap Hg. destruct (mapi_from_inv _ _ _ _ Hmap) as [Hlen Hnth].
  assert (Hlt : (i < List.length (pieChartData props))%nat).
  { rewrite <- Hlen. apply nth_error_Some. congruence. }
  destruct (nth_error (pieChartData props) i) as [slice|] eqn:Hslice;
    [|apply nth_error_None in Hslice; lia].
  destruct (Hnth i slice Hslice) as (g' & Hg' & Hrender).
  rewrite Hg in Hg'. injection Hg' as <-. simpl in Hrender.
  rewrite pieChartData_length in Hlt.
  destruct (nth_error (points props) i) as [pt|] eqn:Hpt;
    [|apply nth_error_None in Hpt; lia].
  destruct (createPie_nth _ _ _ Hpt) as (slice' & Hslice' & Hdata).
  unfold pieChartData in Hslice. rewrite Hslice in Hslice'.
  injection Hslice' as <-.
  destruct (renderSlice_inv _ _ _ _ _ _ _ Hrender) as (s & Hs & _).
  exists slice, s, pt. auto.
Qed.

(** The three shapes the groups of a rendered element can take. *)
Lemma groupsOf_cases (rendered : Rendered H) (w : DonutWrapper H) :
  Chart imports hooks props st = Js.Normal rendered ->
  element rendered = Some w ->
  groupsOf w = []
  \/ (emptyState props = true /\ groupsOf w = [emptyArc imports hooks props])
  \/ (emptyState props = false
      /\ Js.mapi (renderSlice imports hooks props st) (pieChartData props)
         = Js.Normal (groupsOf w)).
Proof.
  intros Hchart Helt.
  destruct (Chart_element _ _ _ _ _ _ Hchart Helt) as (content & Hcontent & ->).
  unfold groupsOf. simpl. unfold donutContent in Hcontent.
  destruct (ChartState_eqb (p_state props) Success).
  - unfold svgGroups in Hcontent.
    destruct (r_isLegendMounted _).
    + destruct (emptyState props).
      * injection Hcontent as <-. simpl. auto.
      * destruct (Js.mapi _ _) as [groups|e]; simpl in Hcontent; [|discriminate].
        injection Hcontent as <-. simpl. auto.
    + injection Hcontent as <-. simpl. auto.
  - injection Hcontent as <-. simpl. auto.
Qed.

(** Gates open and a series behind every point: the slices are drawn. *)
Lemma Chart_slices :
  p_state props = Success ->
  ~ r_width (legendResult imports hooks props) == 0 ->
  ~ r_height (legendResult imports hooks props) == 0 ->
  r_isLegendMounted (legendResult imports hooks props) = true ->
  emptyState props = false ->
  (List.length (points props) <= List.length (p_data props))%nat ->
  exists rendered w label svg inner groups,
    Chart imports hooks props st = Js.Normal rendered
    /\ element rendered = Some w
    /\ w_donut w = SuccessFragment label svg inner
    /\ svg_groups svg = Some groups
    /\ Js.mapi (renderSlice imports hooks props st) (pieChartData props)
       = Js.Normal groups.
Proof.
  intros Hstate Hw Hh Hmounted Hempty Hfits.
  destruct (renderSlices_complete imports hooks props st Hfits)
    as [groups Hmap].
  destruct (Chart_success imports hooks props st Hstate Hw Hh groups)
    as (rendered & w & label & svg & inner & Hchart & Helt & Hdonut & Hgroups).
  { rewrite svgGroups_slices by assumption. now rewrite Hmap. }
  exists rendered, w, label, svg, inner, groups. auto 10.
Qed.

End Groups.




(** X5.  A data set without a positive value in which not every value
    equals 0 (some value is missing or negative) is not the empty
    state: with the gates open and a series behind every point, the chart
    draws one slice per point instead of the placeholder, and every one of
    these slices is empty, from angle 0 to angle 0. *)
Theorem values_without_positive_draw_empty_slices {H : Host}
        (imports : Imports H) (hooks : Hooks H) (props : ChartProps H)
        (st : LocalState) :
  p_state props = Success ->
  ~ r_width (legendResult imports hooks props) == 0 ->
  ~ r_height (legendResult imports hooks props) == 0 ->
  r_isLegendMounted (legendResult imports hooks props) = true ->
  Exists (fun d => value d = None \/ valueNumber d < 0) (points props) ->
  Forall (fun d => valueNumber d <= 0) (points props) ->
  (List.length (points props) <= List.length (p_data props))%nat ->
  exists rendered w label svg inner groups,
    Chart imports hooks props st = Js.Normal rendered
    /\ element rendered = Some w
    /\ w_donut w = SuccessFragment label svg inner
    /\ svg_groups svg = Some groups
    /\ List.length groups = List.length (points props)
    /\ Forall (fun g => g_ariaHidden g = false
                        /\ isSlice g = true
                        /\ a_startAngle (g_arc g) == 0
                        /\ a_endAngle (g_arc g) == 0) groups.
Proof.
  intros Hstate Hw Hh Hmounted Hex Hnonpos Hfits.
  assert (Hempty : emptyState props = false).
  { apply emptyState_false.
    { intros Hnil. rewrite Hnil in Hex. inversion Hex. }
    intros Hzero. rewrite Forall_forall in Hzero.
    apply Exists_exists in Hex. destruct Hex as (d & Hin & Hd).
    destruct (Hzero d Hin) as (v & Hv & Hv0).
    destruct Hd as [Hnone | Hneg]; [congruence|].
    unfold valueNumber in Hneg. rewrite Hv in Hneg. simpl in Hneg. lra. }
  destruct (Chart_slices imports hooks props st Hstate Hw Hh Hmounted Hempty Hfits)
    as (rendered & w & label & svg & inner & groups & Hchart & Helt & Hdonut
        & Hgroups & Hmap).
  exists rendered, w, label, svg, inner, groups.
  repeat (split; [assumption|]).
  destruct (mapi_from_inv _ _ _ _ Hmap) as [Hlen _].
  split; [rewrite Hlen; apply pieChartData_length|].
  destruct (createPie_collapsed _ Hnonpos) as [_ Hflat].
  rewrite Forall_forall in Hflat.
  apply Forall_forall. intros g Hin.
  destruct (In_nth_error _ _ Hin) as [i Hi].
  destruct (slices_nth _ _ _ _ _ _ _ Hmap Hi)
    as (slice & s & pt & Hslice & Hpt & Hdata & Hs & Hrender).
  rewrite (renderSlice_eq _ _ _ _ _ _ _ Hs) in Hrender.
  injection Hrender as <-. simpl.
  apply nth_error_In in Hslice.
  destruct (Hflat slice Hslice) as [Hstart Hend]. auto.
Qed.

Lemma values_without_positive_draw_empty_slices_witness :
  exists rendered w label svg inner groups,
    Chart Examples.imports (Examples.hooks true)
          (Examples.chartOf MoreExamples.nullSeries Success Examples.size200)
          initialState = Js.Normal rendered
    /\ element rendered = Some w
    /\ w_donut w = SuccessFragment label svg inner
    /\ svg_groups svg = Some groups
    /\ List.length groups = 2%nat
    /\ Forall (fun g => g_ariaHidden g = false
                        /\ isSlice g = true
                        /\ a_startAngle (g_arc g) == 0
                        /\ a_endAngle (g_arc g) == 0) groups.
Proof.
  apply (values_without_positive_draw_empty_slices Examples.imports
           (Examples.hooks true)
           (Examples.chartOf MoreExamples.nullSeries Success Examples.size200)
           initialState).
  - reflexivity.
  - discriminate.
  - discriminate.
  - reflexivity.
  - apply Exists_cons_hd. left. reflexivity.
  - repeat apply Forall_cons; try apply Forall_nil; discriminate.
  - simpl. lia.
Defined.

(** X6.  In every rendered element the React keys of the arc groups are
    pairwise distinct, and the slice at position [i] carries index [i] and
    the key made of the chart id, the infix -arc- and [i]. *)
Theorem slice_keys_are_distinct {H : Host} (imports : Imports H)
        (hooks : Hooks H) (props : ChartProps H) (st : LocalState)
        (rendered : Rendered H) (w : DonutWrapper H) :
  Chart imports hooks props st = Js.Normal rendered ->
  element rendered = Some w ->
  NoDup (map g_key (groupsOf w))
  /\ forall i g,
       nth_error (groupsOf w) i = Some g -> isSlice g = true ->
       a_index (g_arc g) = Some i
       /\ g_key g
          = Some (useUniqueId hooks "Donut" ++ "-arc-" ++ Js.indexToString i)%string.
Proof.
  intros Hchart Helt.
  destruct (groupsOf_cases _ _ _ _ _ _ Hchart Helt)
    as [-> | [[_ ->] | [_ Hmap]]].
  - split; [constructor|]. intros [|i] g; discriminate.
  - split; [repeat constructor; intros []|].
    intros [|[|i]] g; simpl; try discriminate.
    intros [= <-]. discriminate.
  - assert (Hnth : forall i g,
      nth_error (groupsOf w) i = Some g ->
      a_index (g_arc g) = Some i
      /\ g_key g
         = Some (useUniqueId hooks "Donut" ++ "-arc-" ++ Js.indexToString i)%string).
    { intros i g Hg.
      destruct (slices_nth _ _ _ _ _ _ _ Hmap Hg)
        as (slice & s & pt & _ & _ & _ & Hs & Hrender).
      rewrite (renderSlice_eq _ _ _ _ _ _ _ Hs) in Hrender.
      injection Hrender as <-. simpl. auto. }
    split; [|intros i g Hg _; now apply Hnth].
    apply NoDup_nth_error. intros i j Hi Hij.
    rewrite length_map in Hi.
    rewrite !nth_error_map in Hij.
    destruct (nth_error (groupsOf w) i) as [g|] eqn:Hg;
      [|apply nth_error_None in Hg; lia].
    destruct (nth_error (groupsOf w) j) as [g'|] eqn:Hg'; [|discriminate].
    simpl in Hij. injection Hij as Hkey.
    destruct (Hnth i g Hg) as [_ Hk]. destruct (Hnth j g' Hg') as [_ Hk'].
    rewrite Hk, Hk' in Hkey. injection Hkey as Hkey.
    apply append_inj_l in Hkey. apply (append_inj_l "-arc-") in Hkey.
    now apply indexToString_inj.
Qed.

Lemma slice_keys_are_distinct_witness :
  exists rendered w,
    Chart Examples.imports (Examples.hooks true)
          (Examples.chartOf Examples.twoSeries Success Examples.size200)
          initialState = Js.Normal rendered
    /\ element rendered = Some w
    /\ NoDup (map g_key (groupsOf w)).
Proof.
  pose proof (slice_keys_are_distinct Examples.imports (Examples.hooks true)
                (Examples.chartOf Examples.twoSeries Success Examples.size200)
                initialState _ _ eq_refl eq_refl) as [Hkeys _].
  do 2 eexists. split; [reflexivity|]. split; [reflexivity|]. exact Hkeys.
Defined.



(** X8.  The donut is a square that fits the area [useLegend] negotiated:
    its side is at most the negotiated height and width.  Every arc of one
    render, placeholder or slice, is given that side as width and height,
    half of it as radius, and the same thickness, corner radius and
    animation flag.  For a negotiated height above 150 the thickness is at
    most the theme's arc thickness and a tenth of the height; otherwise it
    is [THIN_ARC_CORNER_THICKNESS]. *)
Theorem arcs_share_one_geometry {H : Host} (imports : Imports H)
        (hooks : Hooks H) (props : ChartProps H) (st : LocalState)
        (rendered : Rendered H) (w : DonutWrapper H) :
  Chart imports hooks props st = Js.Normal rendered ->
  element rendered = Some w ->
  let negotiated := legendResult imports hooks props in
  let side := diameter imports hooks props in
  let ring := thickness imports hooks props in
  side <= r_height negotiated
  /\ side <= r_width negotiated
  /\ Forall (fun g => a_width (g_arc g) = side
                      /\ a_height (g_arc g) = side
                      /\ a_radius (g_arc g) = side / 2
                      /\ a_thickness (g_arc g) = ring
                      /\ a_cornerRadius (g_arc g)
                         = theme_cornerRadius (arc (useTheme hooks))
                      /\ a_isAnimated (g_arc g)
                         = useChartContext_shouldAnimate hooks)
            (groupsOf w)
  /\ (SMALL_CHART_HEIGHT_THRESHOLD < r_height negotiated ->
      ring <= theme_thickness (arc (useTheme hooks))
      /\ ring <= r_height negotiated / 10)
  /\ (r_height negotiated <= SMALL_CHART_HEIGHT_THRESHOLD ->
      ring = THIN_ARC_CORNER_THICKNESS imports).
Proof.
  intros Hchart Helt negotiated side ring.
  split; [apply Q.le_min_l|]. split; [apply Q.le_min_r|]. split; [|split].
  - destruct (groupsOf_cases _ _ _ _ _ _ Hchart Helt)
      as [-> | [[_ ->] | [_ Hmap]]].
    + constructor.
    + repeat constructor.
    + apply Forall_forall. intros g Hin.
      destruct (In_nth_error _ _ Hin) as [i Hi].
      destruct (slices_nth _ _ _ _ _ _ _ Hmap Hi)
        as (slice & s & pt & _ & _ & _ & Hs & Hrender).
      rewrite (renderSlice_eq _ _ _ _ _ _ _ Hs) in Hrender.
      injection Hrender as <-. simpl. repeat split; reflexivity.
  - intros Htall. subst ring. unfold thickness.
    apply gt_true in Htall. fold negotiated. rewrite Htall.
    split; [apply Q.le_min_r | apply Q.le_min_l].
  - intros Hsmall. subst ring. unfold thickness.
    apply gt_false in Hsmall. fold negotiated. now rewrite Hsmall.
Qed.

Lemma arcs_share_one_geometry_witness :
  exists rendered w,
    Chart Examples.imports (Examples.hooks true)
          (Examples.chartOf Examples.twoSeries Success Examples.size200)
          initialState = Js.Normal rendered
    /\ element rendered = Some w
    /\ Forall (fun g => a_thickness (g_arc g) == 18) (groupsOf w).
Proof.
  pose proof (arcs_share_one_geometry Examples.imports (Examples.hooks true)
                (Examples.chartOf Examples.twoSeries Success Examples.size200)
                initialState _ _ eq_refl eq_refl)
    as (_ & _ & Hall & _).
  do 2 eexists. split; [reflexivity|]. split; [reflexivity|].
  eapply Forall_impl; [|exact Hall].
  intros g (_ & _ & _ & -> & _). reflexivity.
Defined.

(** X7.  The slice at position [i] is exposed as an image whose label is
    made of the name of the series at position [i] and of the key and value
    of the flattened point at position [i]; a group that is not a slice (the
    placeholder) is hidden from assistive technology and has no label. *)
Theorem slice_labels_name_series_and_point {H : Host} (imports : Imports H)
        (hooks : Hooks H) (props : ChartProps H) (st : LocalState)
        (rendered : Rendered H) (w : DonutWrapper H) :
  Chart imports hooks props st = Js.Normal rendered ->
  element rendered = Some w ->
  (forall i g,
      nth_error (groupsOf w) i = Some g -> isSlice g = true ->
      exists s pt,
        nth_error (p_data props) i = Some s
        /\ nth_error (points props) i = Some pt
        /\ g_ariaHidden g = false
        /\ g_role g = Some "img"%string
        /\ g_ariaLabel g
           = Some (nameToString (name s) ++ ": "
                     ++ keyToString imports (key pt) ++ " - "
                     ++ valueToString imports (value pt))%string)
  /\ (forall g,
        In g (groupsOf w) -> isSlice g = false ->
        g_ariaHidden g = true /\ g_ariaLabel g = None /\ g_role g = None).
Proof.
  intros Hchart Helt.
  destruct (groupsOf_cases _ _ _ _ _ _ Hchart Helt)
    as [-> | [[_ ->] | [_ Hmap]]].
  - split; [intros [|i] g; discriminate | intros g []].
  - split.
    + intros [|[|i]] g; simpl; try discriminate. intros [= <-]. discriminate.
    + intros g [<- | []] _. auto.
  - split.
    + intros i g Hg _.
      destruct (slices_nth _ _ _ _ _ _ _ Hmap Hg)
        as (slice & s & pt & _ & Hpt & Hdata & Hs & Hrender).
      rewrite (renderSlice_eq _ _ _ _ _ _ _ Hs) in Hrender.
      injection Hrender as <-. simpl. rewrite Hdata.
      exists s, pt. auto.
    + intros g Hin Hnot.
      destruct (In_nth_error _ _ Hin) as [i Hi].
      destruct (slices_nth _ _ _ _ _ _ _ Hmap Hi)
        as (slice & s & pt & _ & _ & _ & Hs & Hrender).
      rewrite (renderSlice_eq _ _ _ _ _ _ _ Hs) in Hrender.
      injection Hrender as <-. discriminate.
Qed.

Lemma slice_labels_name_series_and_point_witness :
  exists rendered w g,
    Chart Examples.imports (Examples.hooks true)
          (Examples.chartOf MoreExamples.nullSeries Success Examples.size200)
          initialState = Js.Normal rendered
    /\ element rendered = Some w
    /\ nth_error (groupsOf w) 1 = Some g
    /\ g_ariaLabel g = Some "undefined: 2 - null"%string.
Proof.
  pose proof (slice_labels_name_series_and_point Examples.imports
                (Examples.hooks true)
                (Examples.chartOf MoreExamples.nullSeries Success Examples.size200)
                initialState _ _ eq_refl eq_refl) as [Hslices _].
  destruct (Hslices 1%nat _ eq_refl eq_refl)
    as (s & pt & Hs & Hpt & _ & _ & Hlabel).
  injection Hs as <-. injection Hpt as <-.
  do 3 eexists. split; [reflexivity|]. split; [reflexivity|].
  split; [reflexivity|]. exact Hlabel.
Defined.

(** X11.  After a [COLOR_VISION_SINGLE_ITEM] event with index [i], the
    inner value of the next render is given [i] and, as active value, the
    value of the flattened point at position [i]; an index that is negative
    or at least the number of points gives no active value. *)
Theorem hovered_point_value_reaches_inner_value {H : Host}
        (imports : Imports H) (hooks : Hooks H) (props : ChartProps H)
        (st : LocalState) (event : ColorVisionEvent)
        (rendered : Rendered H) (w : DonutWrapper H)
        (label : string) (svg : Svg) (inner : InnerValueProps H) :
  event_type event = COLOR_VISION_SINGLE_ITEM imports ->
  Chart imports hooks props (deliver (watchArgs imports) event st)
  = Js.Normal rendered ->
  element rendered = Some w ->
  w_donut w = SuccessFragment label svg inner ->
  let i := index (detail event) in
  iv_activeIndex inner = i
  /\ (forall pt,
        (0 <= i)%Z -> nth_error (points props) (Z.to_nat i) = Some pt ->
        iv_activeValue inner = Some (value pt))
  /\ ((i < 0)%Z \/ (Z.of_nat (List.length (points props)) <= i)%Z ->
      iv_activeValue inner = None).
Proof.
  intros Htype Hchart Helt Hdonut i.
  destruct (Chart_element _ _ _ _ _ _ Hchart Helt) as (content & Hcontent & ->).
  simpl in Hdonut. subst content. unfold donutContent in Hcontent.
  destruct (ChartState_eqb (p_state props) Success); [|discriminate].
  destruct (svgGroups _ _ _ _); simpl in Hcontent; [|discriminate].
  injection Hcontent as _ _ <-.
  assert (Hactive : activeIndex (deliver (watchArgs imports) event st) = i).
  { unfold deliver, watchArgs. simpl. now rewrite Htype, String.eqb_refl. }
  unfold innerValue, activeValue. simpl. rewrite Hactive.
  split; [reflexivity|]. split.
  - intros pt Hpos Hpt. unfold at_index.
    destruct (Z.ltb_spec i 0); [lia|]. now rewrite Hpt.
  - intros Hout. unfold at_index.
    destruct (Z.ltb_spec i 0); [reflexivity|].
    destruct Hout as [Hneg | Hbig]; [lia|].
    assert (Hnone : nth_error (points props) (Z.to_nat i) = None)
      by (apply nth_error_None; lia).
    now rewrite Hnone.
Qed.

Lemma hovered_point_value_reaches_inner_value_witness :
  exists rendered w label svg inner,
    Chart Examples.imports (Examples.hooks true)
          (Examples.chartOf Examples.twoSeries Success Examples.size200)
          (deliver (watchArgs Examples.imports) (Examples.hover 1) initialState)
    = Js.Normal rendered
    /\ element rendered = Some w
    /\ w_donut w = SuccessFragment label svg inner
    /\ iv_activeValue inner = Some (Some 3).
Proof.
  pose proof (hovered_point_value_reaches_inner_value Examples.imports
                (Examples.hooks true)
                (Examples.chartOf Examples.twoSeries Success Examples.size200)
                initialState (Examples.hover 1) _ _ _ _ _
                eq_refl eq_refl eq_refl eq_refl) as (_ & Hin & _).
  do 5 eexists. split; [reflexivity|]. split; [reflexivity|].
  split; [reflexivity|].
  apply (Hin (mkDataPoint (KeyString "april") (Some 3)));
    [cbv; discriminate | reflexivity].
Defined.




Lemma legendDirection_vertical {H : Host} (props : ChartProps H) :
  legendDirection props = vertical
  <-> legendPosition props = "right"%string
      \/ legendPosition props = "left"%string.
Proof.
  unfold legendDirection.
  destruct (String.eqb_spec (legendPosition props) "right") as [-> | Hr]; simpl.
  - split; auto.
  - destruct (String.eqb_spec (legendPosition props) "left") as [-> | Hl]; simpl.
    + split; auto.
    + split; [discriminate | intros [? | ?]; contradiction].
Qed.

Lemma Direction_eqb_vertical (d : Direction) :
  Direction_eqb d vertical = true <-> d = vertical.
Proof. destruct d; simpl; split; intros; congruence. Qed.

Section Legend.

Context {H : Host}.
Variable imports : Imports H.
Variable hooks : Hooks H.
Variable props : ChartProps H.
Variable st : LocalState.
Variable rendered : Rendered H.
Variable w : DonutWrapper H.
Variable legend : LegendContainerProps H.

Hypothesis Hchart : Chart imports hooks props st = Js.Normal rendered.
Hypothesis Helt : element rendered = Some w.
Hypothesis Hlegend : w_legend w = Some legend.

Lemma rendered_legend :
  p_showLegend props = true
  /\ w_style w = dynamicStyles imports props
  /\ legend
     = {| lc_fullWidth := legendFullWidth props;
          lc_onDimensionChange :=
            r_setLegendDimensions (legendResult imports hooks props);
          lc_colorVisionType := COLOR_VISION_SINGLE_ITEM imports;
          lc_data := r_legend (legendResult imports hooks props);
          lc_direction := legendDirection props;
          lc_position := legendPosition props;
          lc_maxWidth := maxLegendWidth props;
          lc_enableHideOverflow := negb (isCornerPosition props);
          lc_dimensions := withOrigin (dimensions props);
          lc_renderLegendContent :=
            if shouldRenderLegendContentWithValues props
            then Some (WithValues (renderLegendContentWithValues props st))
            else option_map Custom (p_renderLegendContent props) |}.
Proof.
  destruct (Chart_element _ _ _ _ _ _ Hchart Helt) as (content & _ & Hw).
  rewrite Hw in Hlegend. simpl in Hlegend. unfold legendContainer in Hlegend.
  destruct (p_showLegend props); [|discriminate].
  injection Hlegend as <-. rewrite Hw. auto.
Qed.

End Legend.

(** X14.  A rendered legend container is configured like the hooks of the
    same render: [useLegend] was told to show a legend, with the direction,
    maximal width and dimensions the container gets and with all the chart's
    series; the container's rectangle is the one given to
    [useColorVisionEvents]; and the container emits the event type the chart
    watches. *)
Theorem legend_and_hooks_agree {H : Host} (imports : Imports H)
        (hooks : Hooks H) (props : ChartProps H) (st : LocalState)
        (rendered : Rendered H) (w : DonutWrapper H)
        (legend : LegendContainerProps H) :
  Chart imports hooks props st = Js.Normal rendered ->
  element rendered = Some w ->
  w_legend w = Some legend ->
  let args := useLegendArgs imports hooks props in
  ul_showLegend args = true
  /\ lc_direction legend = ul_direction args
  /\ lc_maxWidth legend = ul_maxWidth args
  /\ lc_dimensions legend = withOrigin (ul_dimensions args)
  /\ lc_dimensions legend = cv_dimensions (colorVisionEvents rendered)
  /\ lc_colorVisionType legend = watch_type (watchColorVisionEvents rendered)
  /\ flat_map series (ul_data args) = p_data props.
Proof.
  intros Hchart Helt Hlegend args.
  destruct (rendered_legend _ _ _ _ _ _ _ Hchart Helt Hlegend)
    as (Hshow & _ & ->).
  rewrite (Chart_watcher _ _ _ _ _ Hchart). simpl.
  assert (Hcv : colorVisionEvents rendered = colorVisionEventsArgs imports hooks props).
  { revert Hchart. unfold Chart. destruct (negb _ || negb _)%bool.
    - now intros [= <-].
    - destruct (donutContent _ _ _ _); simpl; [|discriminate]. now intros [= <-]. }
  rewrite Hcv. simpl. rewrite app_nil_r. auto 10.
Qed.

Lemma legend_and_hooks_agree_witness :
  exists rendered w legend,
    Chart Examples.imports (Examples.hooks true) MoreExamples.cornerChart
          initialState = Js.Normal rendered
    /\ element rendered = Some w
    /\ w_legend w = Some legend
    /\ lc_direction legend
       = ul_direction (useLegendArgs Examples.imports (Examples.hooks true)
                         MoreExamples.cornerChart).
Proof.
  pose proof (legend_and_hooks_agree Examples.imports (Examples.hooks true)
                MoreExamples.cornerChart initialState _ _ _
                eq_refl eq_refl eq_refl) as (_ & Hdir & _).
  do 3 eexists. split; [reflexivity|]. split; [reflexivity|].
  split; [reflexivity|]. exact Hdir.
Defined.

(** X15.  A caller's [renderLegendContent] is always handed to the legend
    container as it is.  Without one, the chart's own legend values are used
    exactly when [showLegendValues] is true and the legend is vertical, and
    they are built from the chart's data and the methods the container
    passes; otherwise the container gets no content renderer. *)
Theorem legend_content_choice {H : Host} (imports : Imports H)
        (hooks : Hooks H) (props : ChartProps H) (st : LocalState)
        (rendered : Rendered H) (w : DonutWrapper H)
        (legend : LegendContainerProps H) :
  Chart imports hooks props st = Js.Normal rendered ->
  element rendered = Some w ->
  w_legend w = Some legend ->
  (forall custom,
      p_renderLegendContent props = Some custom ->
      lc_renderLegendContent legend = Some (Custom custom))
  /\ (p_renderLegendContent props = None ->
      p_showLegendValues props = true ->
      lc_direction legend = vertical ->
      exists render,
        lc_renderLegendContent legend = Some (WithValues render)
        /\ forall methods,
             lv_data (render methods) = p_data props
             /\ lv_getColorVisionStyles (render methods)
                = getColorVisionStyles methods
             /\ lv_getColorVisionEventAttrs (render methods)
                = getColorVisionEventAttrs methods
             /\ lv_dimensions (render methods) = lc_dimensions legend
             /\ lv_legendFullWidth (render methods) = lc_fullWidth legend)
  /\ (p_renderLegendContent props = None ->
      p_showLegendValues props = false \/ lc_direction legend = horizontal ->
      lc_renderLegendContent legend = None).
Proof.
  intros Hchart Helt Hlegend.
  destruct (rendered_legend _ _ _ _ _ _ _ Hchart Helt Hlegend)
    as (_ & _ & ->).
  simpl. unfold shouldRenderLegendContentWithValues. repeat split.
  - intros custom ->. reflexivity.
  - intros -> -> Hdir. apply Direction_eqb_vertical in Hdir. rewrite Hdir.
    simpl. eexists. split; [reflexivity|]. intros methods. simpl. auto.
  - intros -> [-> | ->]; simpl; [reflexivity|].
    now rewrite andb_false_r.
Qed.

Lemma legend_content_choice_witness :
  exists rendered w legend,
    Chart Examples.imports (Examples.hooks true) MoreExamples.customChart
          initialState = Js.Normal rendered
    /\ element rendered = Some w
    /\ w_legend w = Some legend
    /\ lc_renderLegendContent legend = Some (Custom (H := Examples.host) tt).
Proof.
  pose proof (legend_content_choice Examples.imports (Examples.hooks true)
                MoreExamples.customChart initialState _ _ _
                eq_refl eq_refl eq_refl) as (Hcustom & _).
  do 3 eexists. split; [reflexivity|]. split; [reflexivity|].
  split; [reflexivity|]. exact (Hcustom tt eq_refl).
Defined.

(** X16.  Hiding of overflowing legend items is switched off only for a
    horizontal legend: then the legend has maximal width 0, the wrapper has
    no gap and the chart's legend values are never used.  A vertical legend
    always hides overflow, gets half the width of the [dimensions] prop as
    maximal width and a gap of 16px. *)
Theorem corner_legend_is_horizontal {H : Host} (imports : Imports H)
        (hooks : Hooks H) (props : ChartProps H) (st : LocalState)
        (rendered : Rendered H) (w : DonutWrapper H)
        (legend : LegendContainerProps H) :
  Chart imports hooks props st = Js.Normal rendered ->
  element rendered = Some w ->
  w_legend w = Some legend ->
  (lc_enableHideOverflow legend = false ->
   lc_direction legend = horizontal
   /\ lc_maxWidth legend = 0
   /\ gap (w_style w) = None
   /\ forall render, lc_renderLegendContent legend <> Some (WithValues render))
  /\ (lc_direction legend = vertical ->
      lc_enableHideOverflow legend = true
      /\ lc_maxWidth legend = width (dimensions props) / 2
      /\ gap (w_style w) = Some "16px"%string).
Proof.
  intros Hchart Helt Hlegend.
  destruct (rendered_legend _ _ _ _ _ _ _ Hchart Helt Hlegend)
    as (_ & -> & ->).
  simpl.
  assert (Hcorner : isCornerPosition props = true -> legendDirection props = horizontal).
  { intros Hc. destruct (legendDirection props) eqn:Hdir; [|reflexivity].
    apply legendDirection_vertical in Hdir. unfold isCornerPosition in Hc.
    destruct Hdir as [Hp | Hp]; rewrite Hp in Hc; discriminate Hc. }
  split.
  - intros Hoverflow. apply negb_false_iff in Hoverflow.
    specialize (Hcorner Hoverflow).
    unfold maxLegendWidth, shouldRenderLegendContentWithValues.
    rewrite Hcorner. simpl. rewrite andb_false_r. repeat split.
    intros render. destruct (p_renderLegendContent props); discriminate.
  - intros Hdir. unfold maxLegendWidth. rewrite Hdir. simpl. repeat split.
    destruct (isCornerPosition props) eqn:Hc; [|reflexivity].
    specialize (Hcorner eq_refl). congruence.
Qed.

Lemma corner_legend_is_horizontal_witness :
  exists rendered w legend,
    Chart Examples.imports (Examples.hooks true) MoreExamples.cornerChart
          initialState = Js.Normal rendered
    /\ element rendered = Some w
    /\ w_legend w = Some legend
    /\ lc_enableHideOverflow legend = false
    /\ lc_direction legend = horizontal.
Proof.
  pose proof (corner_legend_is_horizontal Examples.imports (Examples.hooks true)
                MoreExamples.cornerChart initialState _ _ _
                eq_refl eq_refl eq_refl) as (Hcorner & _).
  do 3 eexists. split; [reflexivity|]. split; [reflexivity|].
  split; [reflexivity|]. split; [reflexivity|].
  exact (proj1 (Hcorner eq_refl)).
Defined.



Section Events.

Context {H : Host}.
Variable imports : Imports H.
Variable hooks : Hooks H.
Variable props : ChartProps H.
Variable st : LocalState.
Variable rendered : Rendered H.

Hypothesis Hchart : Chart imports hooks props st = Js.Normal rendered.

Lemma Chart_events :
  colorVisionEvents rendered = colorVisionEventsArgs imports hooks props.
Proof.
  revert Hchart. unfold Chart. destruct (negb _ || negb _)%bool.
  - now intros [= <-].
  - destruct (donutContent _ _ _ _); simpl; [|discriminate]. now intros [= <-].
Qed.

Lemma Chart_sized_iff_element :
  (Js.truthy (r_width (legendResult imports hooks props))
   && Js.truthy (r_height (legendResult imports hooks props)))%bool
  = match element rendered with Some _ => true | None => false end.
Proof.
  revert Hchart. unfold Chart.
  destruct (Js.truthy (r_width _)); simpl.
  - destruct (Js.truthy (r_height _)); simpl.
    + destruct (donutContent _ _ _ _); simpl; [|discriminate].
      now intros [= <-].
    + now intros [= <-].
  - now intros [= <-].
Qed.

End Events.

(** X13.  [useColorVisionEvents] is enabled exactly when the width and the
    height from [useLegend] are non-zero and the legend is mounted, whatever
    the chart state.  So it is never enabled when the chart returns [null];
    in a success render it is enabled exactly when the [<svg>] holds its
    group of arcs; it is enabled whenever there is an arc in the output; and
    in a render of the skeleton, which draws no arc, it is enabled all the
    same once the legend is mounted. *)
Theorem color_vision_events_need_size_and_legend {H : Host}
        (imports : Imports H) (hooks : Hooks H) (props : ChartProps H)
        (st : LocalState) (rendered : Rendered H) :
  Chart imports hooks props st = Js.Normal rendered ->
  (cv_enabled (colorVisionEvents rendered) = true
   <-> ~ r_width (legendResult imports hooks props) == 0
       /\ ~ r_height (legendResult imports hooks props) == 0
       /\ r_isLegendMounted (legendResult imports hooks props) = true)
  /\ (element rendered = None -> cv_enabled (colorVisionEvents rendered) = false)
  /\ (forall w label svg inner,
        element rendered = Some w ->
        w_donut w = SuccessFragment label svg inner ->
        (cv_enabled (colorVisionEvents rendered) = true
         <-> exists groups, svg_groups svg = Some groups))
  /\ (forall w g,
        element rendered = Some w -> In g (groupsOf w) ->
        cv_enabled (colorVisionEvents rendered) = true)
  /\ (forall w skeleton,
        element rendered = Some w ->
        w_donut w = Skeleton skeleton ->
        groupsOf w = []
        /\ cv_enabled (colorVisionEvents rendered)
           = r_isLegendMounted (legendResult imports hooks props)).
Proof.
  intros Hchart.
  pose proof (Chart_sized_iff_element _ _ _ _ _ Hchart) as Hsized.
  rewrite (Chart_events _ _ _ _ _ Hchart).
  unfold colorVisionEventsArgs, shouldUseColorVisionEvents.
  cbn [cv_enabled].
  assert (Hgroups : forall w label svg inner,
    element rendered = Some w ->
    w_donut w = SuccessFragment label svg inner ->
    (r_isLegendMounted (legendResult imports hooks props) = true
     <-> exists groups, svg_groups svg = Some groups)).
  { intros w label svg inner Helt Hdonut.
    destruct (Chart_element _ _ _ _ _ _ Hchart Helt) as (content & Hcontent & ->).
    simpl in Hdonut. subst content. unfold donutContent in Hcontent.
    destruct (ChartState_eqb (p_state props) Success); [|discriminate].
    unfold svgGroups in Hcontent.
    destruct (r_isLegendMounted _).
    - destruct (emptyState props).
      + injection Hcontent as _ <- _. simpl. split; eauto.
      + destruct (Js.mapi _ _); simpl in Hcontent; [|discriminate].
        injection Hcontent as _ <- _. simpl. split; eauto.
    - injection Hcontent as _ <- _. simpl.
      split; [discriminate | intros [groups Hg]; discriminate]. }
  split; [|split; [|split; [|split]]].
  - rewrite !andb_true_iff, !truthy_true. tauto.
  - intros Hnone. rewrite Hnone in Hsized. now rewrite Hsized.
  - intros w label svg inner Helt Hdonut.
    rewrite Helt in Hsized. rewrite Hsized. simpl.
    now apply (Hgroups w label svg inner).
  - intros w g Helt Hin.
    rewrite Helt in Hsized. rewrite Hsized. simpl.
    unfold groupsOf in Hin.
    destruct (w_donut w) as [label svg inner|] eqn:Hdonut; [|destruct Hin].
    apply (Hgroups w label svg inner Helt Hdonut).
    destruct (svg_groups svg); [eauto | destruct Hin].
  - intros w skeleton Helt Hdonut.
    rewrite Helt in Hsized. rewrite Hsized. simpl.
    unfold groupsOf. rewrite Hdonut. auto.
Qed.

Lemma color_vision_events_need_size_and_legend_witness :
  exists rendered w,
    Chart Examples.imports (Examples.hooks true)
          (Examples.chartOf Examples.twoSeries Loading Examples.size200)
          initialState = Js.Normal rendered
    /\ element rendered = Some w
    /\ groupsOf w = []
    /\ cv_enabled (colorVisionEvents rendered) = true.
Proof.
  pose proof (color_vision_events_need_size_and_legend Examples.imports
                (Examples.hooks true)
                (Examples.chartOf Examples.twoSeries Loading Examples.size200)
                initialState _ eq_refl) as (_ & _ & _ & _ & Hskeleton).
  destruct (Hskeleton _ _ eq_refl eq_refl) as [Hgroups Henabled].
  do 2 eexists. split; [reflexivity|]. split; [reflexivity|].
  split; [exact Hgroups | exact Henabled].
Defined.



Lemma last_cons_default {A : Type} (x d : A) (l : list A) :
  last (x :: l) d = last l x.
Proof.
  revert x d. induction l as [|y rest IH]; intros x d.
  - reflexivity.
  - change (last (x :: y :: rest) d) with (last (y :: rest) d).
    now rewrite (IH y d), (IH y x).
Qed.

(** X12.  After any sequence of events, the active index is the index of
    the latest event of type [COLOR_VISION_SINGLE_ITEM], or the index the
    chart had before when there was none: events of other types change
    nothing and an earlier index is never kept. *)
Theorem active_index_follows_latest_matching_event {H : Host}
        (imports : Imports H) (events : list ColorVisionEvent)
        (st : LocalState) :
  activeIndex
    (fold_left (fun s event => deliver (watchArgs imports) event s) events st)
  = last (map (fun event => index (detail event))
              (filter (fun event =>
                         String.eqb (event_type event)
                                    (COLOR_VISION_SINGLE_ITEM imports))
                      events))
         (activeIndex st).
Proof.
  revert st. induction events as [|event rest IH]; intros st.
  - reflexivity.
  - cbn [fold_left filter]. rewrite IH. unfold deliver, watchArgs.
    cbn [watch_type onIndexChange].
    destruct (String.eqb (event_type event) (COLOR_VISION_SINGLE_ITEM imports)).
    + cbn [map]. now rewrite last_cons_default.
    + reflexivity.
Qed.



Lemma digits_have_no_dash (d : Decimal.uint) (s t : string) :
  NilEmpty.string_of_uint d <> (s ++ "-" ++ t)%string.
Proof.
  revert s. induction d; intros s Heq; simpl in Heq;
    destruct s as [|c s]; simpl in Heq; try discriminate Heq;
    injection Heq as _ Heq; exact (IHd _ Heq).
Qed.

Lemma index_has_no_dash (i : nat) (s t : string) :
  Js.indexToString i <> (s ++ "-" ++ t)%string.
Proof.
  unfold Js.indexToString, NilZero.string_of_uint.
  destruct (Nat.to_uint i) eqn:E; try apply digits_have_no_dash.
  now apply to_uint_not_Nil in E.
Qed.

Lemma suffix_after_last_dash (s1 s2 d1 d2 : string) :
  (forall s t, d1 <> (s ++ "-" ++ t)%string) ->
  (forall s t, d2 <> (s ++ "-" ++ t)%string) ->
  (s1 ++ "-" ++ d1 = s2 ++ "-" ++ d2)%string ->
  d1 = d2.
Proof.
  intros Hd1 Hd2. revert s2.
  induction s1 as [|c s1 IH]; intros [|c' s2]; simpl.
  - now intros [= ->].
  - intros [= _ Heq]. now apply Hd1 in Heq.
  - intros [= _ Heq]. symmetry in Heq. now apply Hd2 in Heq.
  - intros [= _ Heq]. now apply (IH s2).
Qed.

(** X18.  The React keys of the groups [TooltipContent] renders are
    pairwise distinct, whatever the names of the entries. *)
Theorem tooltip_keys_are_distinct {C L : Type}
        (entries : list (Tooltip.TooltipData C L)) :
  NoDup (map Tooltip.group_key
             (Tooltip.children (Tooltip.TooltipContent entries))).
Proof.
  simpl. apply NoDup_nth_error. intros i j Hi Hij.
  rewrite length_map, mapEntries_length in Hi.
  rewrite !nth_error_map in Hij.
  destruct (nth_error entries i) as [e|] eqn:He;
    [|apply nth_error_None in He; lia].
  rewrite (mapEntries_nth _ 0 i e He) in Hij. simpl in Hij.
  destruct (nth_error entries j) as [e'|] eqn:He'.
  - rewrite (mapEntries_nth _ 0 j e' He') in Hij. simpl in Hij.
    injection Hij as Hkey.
    apply suffix_after_last_dash in Hkey; try apply index_has_no_dash.
    now apply indexToString_inj.
  - apply nth_error_None in He'.
    assert (Hnone : nth_error (Tooltip.mapEntries 0 entries) j = None)
      by (apply nth_error_None; now rewrite mapEntries_length).
    rewrite Hnone in Hij. discriminate.
Qed.



Lemma flat_map_at_most_one (series : list DataSeries) :
  Forall (fun s => (List.length (data s) <= 1)%nat) series ->
  (List.length (flat_map data series) <= List.length series)%nat.
Proof.
  induction 1 as [|s rest Hs _ IH]; simpl.
  - lia.
  - rewrite length_app. lia.
Qed.

Lemma flat_map_exactly_one (series : list DataSeries) (i : nat)
      (s : DataSeries) (pt : DataPoint) :
  Forall (fun s => List.length (data s) = 1%nat) series ->
  nth_error series i = Some s ->
  data s = [pt] ->
  nth_error (flat_map data series) i = Some pt.
Proof.
  intros Hall. revert i.
  induction Hall as [|s0 rest Hs0 _ IH]; intros [|i]; simpl; try discriminate.
  - intros [= ->] ->. reflexivity.
  - intros Hi Hpt.
    destruct (data s0) as [|p0 [|p1 more]]; try discriminate Hs0.
    simpl. now apply IH.
Qed.

(** X2.  When no series has more than one point the render completes,
    whatever the state and the hooks.  When every series has exactly one
    point there are as many flattened points as series, and the point at
    position [i] is the point of the series at position [i]. *)
Theorem at_most_one_point_per_series_never_throws {H : Host}
        (imports : Imports H) (hooks : Hooks H) (props : ChartProps H)
        (st : LocalState) :
  Forall (fun s => (List.length (data s) <= 1)%nat) (p_data props) ->
  (exists rendered, Chart imports hooks props st = Js.Normal rendered)
  /\ (Forall (fun s => List.length (data s) = 1%nat) (p_data props) ->
      List.length (points props) = List.length (p_data props)
      /\ forall i s pt,
           nth_error (p_data props) i = Some s -> data s = [pt] ->
           nth_error (points props) i = Some pt).
Proof.
  intros Hmost.
  assert (Hfits : (List.length (points props) <= List.length (p_data props))%nat).
  { unfold points. rewrite flattenPoints_flat_map.
    now apply flat_map_at_most_one. }
  split.
  - destruct (Chart imports hooks props st) as [rendered|e] eqn:Hchart;
      [eauto|].
    destruct (Chart_throw_inv _ _ _ _ _ Hchart) as (_ & _ & _ & _ & _ & Hmore).
    lia.
  - intros Hone. unfold points. rewrite flattenPoints_flat_map. split.
    + clear Hmost Hfits. induction Hone as [|s rest Hs _ IH]; simpl.
      * reflexivity.
      * rewrite length_app. lia.
    + intros i s pt. now apply flat_map_exactly_one.
Qed.

Lemma at_most_one_point_per_series_never_throws_witness :
  Forall (fun s => (List.length (data s) <= 1)%nat) Examples.twoSeries
  /\ exists rendered,
       Chart Examples.imports (Examples.hooks true)
             (Examples.chartOf Examples.twoSeries Success Examples.size200)
             initialState = Js.Normal rendered.
Proof.
  assert (Hmost : Forall (fun s => (List.length (data s) <= 1)%nat)
                         Examples.twoSeries).
  { repeat apply Forall_cons; try apply Forall_nil; simpl; lia. }
  split; [exact Hmost|].
  exact (proj1 (at_most_one_point_per_series_never_throws Examples.imports
                  (Examples.hooks true)
                  (Examples.chartOf Examples.twoSeries Success Examples.size200)
                  initialState Hmost)).
Defined.

(** X9.  Every arc of a rendered element has a color as soon as
    [getSeriesColors] returns at least as many colors as the series count it
    is asked for.  Unless the data is in the empty state, the arc at
    position [i] is colored with the color of the series at position [i]
    when that series sets one, and with the palette's color at position [i]
    otherwise. *)
Theorem full_palette_colors_every_slice {H : Host}
        (imports : Imports H) (hooks : Hooks H) (props : ChartProps H)
        (st : LocalState) (rendered : Rendered H) (w : DonutWrapper H) :
  (seriesCount props
   <= List.length (getSeriesColors imports (seriesCount props) (useTheme hooks)))%nat ->
  Chart imports hooks props st = Js.Normal rendered ->
  element rendered = Some w ->
  Forall (fun g => exists c, a_color (g_arc g) = Some c) (groupsOf w)
  /\ (emptyState props = false ->
      forall i g,
        nth_error (groupsOf w) i = Some g ->
        exists s,
          nth_error (p_data props) i = Some s
          /\ a_color (g_arc g)
             = match color s with
               | Some c => Some c
               | None => nth_error (getSeriesColors imports (seriesCount props)
                                                    (useTheme hooks)) i
               end).
Proof.
  intros Hfull Hchart Helt.
  destruct (groupsOf_cases _ _ _ _ _ _ Hchart Helt)
    as [-> | [[Hempty ->] | [_ Hmap]]].
  - split; [constructor|]. intros _ [|i] g; discriminate.
  - split; [repeat constructor; simpl; eauto | congruence].
  - assert (Hcolor : forall i g,
      nth_error (groupsOf w) i = Some g ->
      exists s, nth_error (p_data props) i = Some s
                /\ a_color (g_arc g)
                   = match color s with
                     | Some c => Some c
                     | None => nth_error (getSeriesColors imports
                                            (seriesCount props) (useTheme hooks)) i
                     end).
    { intros i g Hg.
      destruct (slices_nth _ _ _ _ _ _ _ Hmap Hg)
        as (slice & s & pt & _ & _ & _ & Hs & Hrender).
      rewrite (renderSlice_eq _ _ _ _ _ _ _ Hs) in Hrender.
      injection Hrender as <-. simpl. exists s. split; [exact Hs|].
      unfold sliceColor. now rewrite Hs. }
    split; [|intros _; exact Hcolor].
    apply Forall_forall. intros g Hin.
    destruct (In_nth_error _ _ Hin) as [i Hi].
    destruct (Hcolor i g Hi) as (s & Hs & ->).
    destruct (color s) as [c|]; [eauto|].
    destruct (nth_error (getSeriesColors imports (seriesCount props)
                                         (useTheme hooks)) i) as [c|] eqn:Hc;
      [eauto|].
    apply nth_error_None in Hc.
    assert (i < List.length (p_data props))%nat
      by (apply nth_error_Some; congruence).
    pose proof (seriesCount_clamped props) as [Hcount _]. lia.
Qed.

Lemma full_palette_colors_every_slice_witness :
  exists rendered w first second,
    Chart Examples.imports (Examples.hooks true)
          (Examples.chartOf Examples.twoSeries Success Examples.size200)
          initialState = Js.Normal rendered
    /\ element rendered = Some w
    /\ groupsOf w = [first; second]
    /\ a_color (g_arc first) = Some (Solid "#33798c")
    /\ a_color (g_arc second) = Some (Solid "#ff0000").
Proof.
  assert (Hfull :
    (seriesCount (Examples.chartOf Examples.twoSeries Success Examples.size200)
     <= List.length
          (getSeriesColors Examples.imports
             (seriesCount
                (Examples.chartOf Examples.twoSeries Success Examples.size200))
             (useTheme (Examples.hooks true))))%nat).
  { vm_compute. apply le_n. }
  pose proof (full_palette_colors_every_slice Examples.imports
                (Examples.hooks true)
                (Examples.chartOf Examples.twoSeries Success Examples.size200)
                initialState _ _ Hfull eq_refl eq_refl) as [_ Hcolors].
  specialize (Hcolors eq_refl).
  destruct (Hcolors 0%nat _ eq_refl) as (s0 & Hs0 & Hfirst).
  destruct (Hcolors 1%nat _ eq_refl) as (s1 & Hs1 & Hsecond).
  injection Hs0 as <-. injection Hs1 as <-.
  do 4 eexists. split; [reflexivity|]. split; [reflexivity|].
  split; [reflexivity|]. split; [exact Hfirst | exact Hsecond].
Defined.

(** X10.  In a render of the initial state no slice is the active one:
    every slice is given active index -1, which is no slice's index, and the
    inner value is given active index -1 and no active value. *)
Theorem nothing_is_active_before_the_first_event {H : Host}
        (imports : Imports H) (hooks : Hooks H) (props : ChartProps H)
        (rendered : Rendered H) (w : DonutWrapper H) :
  Chart imports hooks props initialState = Js.Normal rendered ->
  element rendered = Some w ->
  (forall g i active,
      In g (groupsOf w) ->
      a_index (g_arc g) = Some i -> a_activeIndex (g_arc g) = Some active ->
      active = (-1)%Z /\ Z.of_nat i <> active)
  /\ (forall label svg inner,
        w_donut w = SuccessFragment label svg inner ->
        iv_activeIndex inner = (-1)%Z /\ iv_activeValue inner = None).
Proof.
  intros Hchart Helt.
  destruct (Chart_highlights _ _ _ _ _ _ Hchart Helt) as (Hslices & Hinner & _).
  split.
  - intros g i active Hin Hi Hactive.
    assert (Hslice : isSlice g = true) by (unfold isSlice; now rewrite Hi).
    rewrite (Hslices g Hin Hslice) in Hactive. injection Hactive as <-.
    simpl. split; [reflexivity | lia].
  - intros label svg inner Hdonut.
    split; [exact (Hinner _ _ _ Hdonut)|].
    destruct (Chart_element _ _ _ _ _ _ Hchart Helt) as (content & Hcontent & ->).
    simpl in Hdonut. subst content. unfold donutContent in Hcontent.
    destruct (ChartState_eqb (p_state props) Success); [|discriminate].
    destruct (svgGroups _ _ _ _); simpl in Hcontent; [|discriminate].
    now injection Hcontent as _ _ <-.
Qed.

Lemma nothing_is_active_before_the_first_event_witness :
  exists rendered w label svg inner,
    Chart Examples.imports (Examples.hooks true)
          (Examples.chartOf Examples.twoSeries Success Examples.size200)
          initialState = Js.Normal rendered
    /\ element rendered = Some w
    /\ w_donut w = SuccessFragment label svg inner
    /\ iv_activeValue inner = None.
Proof.
  pose proof (nothing_is_active_before_the_first_event Examples.imports
                (Examples.hooks true)
                (Examples.chartOf Examples.twoSeries Success Examples.size200)
                _ _ eq_refl eq_refl) as [_ Hinner].
  do 5 eexists. split; [reflexivity|]. split; [reflexivity|].
  split; [reflexivity|]. exact (proj2 (Hinner _ _ _ eq_refl)).
Defined.


(* ------------------------------------------------------------------ *)
(** ** The active index, on every arc *)

Section Drawn.

Context {H : Host}.
Variable imports : Imports H.
Variable hooks : Hooks H.
Variable props : ChartProps H.
Variable st : LocalState.
Variable rendered : Rendered H.
Variable w : DonutWrapper H.

Hypothesis Hchart : Chart imports hooks props st = Js.Normal rendered.
Hypothesis Helt : element rendered = Some w.

(** In the success state, with the legend mounted and the data not in the
    empty state, the groups of the output are those of the slice map. *)
Lemma groupsOf_drawn :
  p_state props = Success ->
  r_isLegendMounted (legendResult imports hooks props) = true ->
  emptyState props = false ->
  Js.mapi (renderSlice imports hooks props st) (pieChartData props)
  = Js.Normal (groupsOf w).
Proof.
  intros Hstate Hmounted Hempty.
  destruct (Chart_element _ _ _ _ _ _ Hchart Helt) as (content & Hcontent & ->).
  unfold groupsOf. simpl. unfold donutContent in Hcontent.
  rewrite Hstate in Hcontent. simpl in Hcontent.
  unfold svgGroups in Hcontent. rewrite Hmounted, Hempty in Hcontent.
  destruct (Js.mapi _ _) as [groups|e]; simpl in Hcontent; [|discriminate].
  now injection Hcontent as <-.
Qed.

Lemma Chart_highlights_every_point :
  highlightsEveryPoint imports hooks props w (activeIndex st).
Proof.
  intros Hempty.
  destruct (groupsOf_cases _ _ _ _ _ _ Hchart Helt)
    as [Hnil | [[Hfull _] | [_ Hmap]]]; [|congruence|].
  - split; [|split].
    + rewrite Hnil. constructor.
    + rewrite Hnil. intros [|j] g; discriminate.
    + intros Hstate Hmounted.
      pose proof (groupsOf_drawn Hstate Hmounted Hempty) as Hmap.
      destruct (mapi_from_inv _ _ _ _ Hmap) as [Hlen _].
      rewrite Hlen. apply pieChartData_length.
  - assert (Hnth : forall j g,
      nth_error (groupsOf w) j = Some g ->
      a_index (g_arc g) = Some j
      /\ a_activeIndex (g_arc g) = Some (activeIndex st)).
    { intros j g Hg.
      destruct (slices_nth _ _ _ _ _ _ _ Hmap Hg)
        as (slice & s & pt & _ & _ & _ & Hs & Hrender).
      rewrite (renderSlice_eq _ _ _ _ _ _ _ Hs) in Hrender.
      injection Hrender as <-. simpl. auto. }
    split; [|split].
    + apply Forall_forall. intros g Hin.
      destruct (In_nth_error _ _ Hin) as [j Hj].
      exact (proj2 (Hnth j g Hj)).
    + intros j g Hg. exact (proj1 (Hnth j g Hg)).
    + intros _ _. destruct (mapi_from_inv _ _ _ _ Hmap) as [Hlen _].
      rewrite Hlen. apply pieChartData_length.
Qed.

End Drawn.

(** C2.  In every reachable state of the chart: a render hands the state's
    one [activeIndex] to every slice, to the inner value and to the legend
    values, and the slices it is handed to are all the arcs of the data
    points, one per flattened point, each at its own index; and receiving a
    [COLOR_VISION_SINGLE_ITEM] event that carries index [i], through the
    watcher the chart registered, makes [activeIndex] equal to [i], which
    the renders that follow hand out in the same way. *)
Theorem active_index_shared {H : Host} (imports : Imports H) (st : LocalState) :
  reachable imports st ->
  (forall hooks props rendered w,
      Chart imports hooks props st = Js.Normal rendered ->
      element rendered = Some w ->
      highlights w (activeIndex st)
      /\ highlightsEveryPoint imports hooks props w (activeIndex st))
  /\ (forall hooks props mounted event,
        Chart imports hooks props st = Js.Normal mounted ->
        event_type event = COLOR_VISION_SINGLE_ITEM imports ->
        let st' := deliver (watchColorVisionEvents mounted) event st in
        activeIndex st' = index (detail event)
        /\ reachable imports st'
        /\ forall hooks' props' rendered w,
             Chart imports hooks' props' st' = Js.Normal rendered ->
             element rendered = Some w ->
             highlights w (index (detail event))
             /\ highlightsEveryPoint imports hooks' props' w
                                     (index (detail event))).
Proof.
  intros Hreach. split.
  - intros hooks props rendered w Hchart Helt. split.
    + eapply Chart_highlights; eassumption.
    + eapply Chart_highlights_every_point; eassumption.
  - intros hooks props mounted event Hmounted Htype st'.
    assert (Hwatch : watchColorVisionEvents mounted = watchArgs imports)
      by exact (Chart_watcher _ _ _ _ _ Hmounted).
    assert (Hst' : activeIndex st' = index (detail event)).
    { subst st'. rewrite Hwatch. unfold deliver, watchArgs. simpl.
      rewrite Htype, String.eqb_refl. reflexivity. }
    split; [exact Hst'|]. split.
    + subst st'. rewrite Hwatch. now constructor.
    + intros hooks' props' rendered w Hchart Helt.
      rewrite <- Hst'. split.
      * eapply Chart_highlights; eassumption.
      * eapply Chart_highlights_every_point; eassumption.
Qed.

Lemma active_index_shared_witness :
  reachable Examples.imports initialState
  /\ exists rendered w,
       Chart Examples.imports (Examples.hooks true)
             (Examples.chartOf Examples.twoSeries Success Examples.size200)
             (deliver (watchArgs Examples.imports) (Examples.hover 1)
                      initialState)
       = Js.Normal rendered
       /\ element rendered = Some w
       /\ List.length (groupsOf w) = 2%nat
       /\ Forall (fun g => a_activeIndex (g_arc g) = Some 1%Z) (groupsOf w).
Proof.
  split.
  - constructor.
  - destruct (active_index_shared Examples.imports initialState
                (reachable_initial Examples.imports)) as [_ Hevent].
    destruct (Hevent (Examples.hooks true)
                (Examples.chartOf Examples.twoSeries Success Examples.size200)
                _ (Examples.hover 1) eq_refl eq_refl) as (_ & _ & Hnext).
    destruct (Hnext (Examples.hooks true)
                (Examples.chartOf Examples.twoSeries Success Examples.size200)
                _ _ eq_refl eq_refl) as [_ Hpoints].
    destruct (Hpoints eq_refl) as (Hall & _ & Hcount).
    do 2 eexists. split; [reflexivity|]. split; [reflexivity|].
    split; [exact (Hcount eq_refl eq_refl) | exact Hall].
Defined.

(* ------------------------------------------------------------------ *)
(** ** The legend negotiation, pass after pass *)

Section Negotiation.

Context {H : Host}.
Variable negotiator : Negotiator H.
Variable imports : Imports (negotiatorHost H).
Variable hooks : Hooks (negotiatorHost H).
Variable props : ChartProps (negotiatorHost H).
Variable st : LocalState.

(** What one pass draws and reports, from the legend dimensions it starts
    with. *)
Lemma layoutPass_inv (legendDimensions measured : Dimensions)
      (rendered : Rendered (negotiatorHost H)) :
  layoutPass negotiator imports hooks props st legendDimensions
  = Js.Normal (rendered, measured) ->
  let args := useLegendArgs imports hooks props in
  let area := drawableArea negotiator args legendDimensions in
  (forall w,
      element rendered = Some w ->
      drawnWithSide w (Js.Math_min (height area) (width area))
      /\ (p_showLegend props = true ->
          exists legend,
            w_legend w = Some legend
            /\ lc_onDimensionChange legend
               = r_setLegendDimensions
                   (useLegendOf negotiator legendDimensions args)
            /\ lc_data legend = legendItems negotiator args
            /\ measured = measureLegend negotiator legend)
      /\ (p_showLegend props = false ->
          w_legend w = None /\ measured = legendDimensions))
  /\ (element rendered = None -> measured = legendDimensions).
Proof.
  intros Hpass args area. unfold layoutPass in Hpass.
  destruct (Chart imports (withLegend negotiator hooks legendDimensions)
                  props st) as [rendered0|e] eqn:Hchart; simpl in Hpass;
    [|discriminate].
  injection Hpass as <- <-. split.
  - intros w Helt. rewrite Helt.
    destruct (legend_wiring _ _ _ _ _ _ Hchart Helt)
      as (Hfragment & Hskeleton & Hshown & Hhidden).
    split; [split; assumption|]. split.
    + intros Hshow. destruct (Hshown Hshow) as (legend & Hlegend & Hhandler & Hdata).
      exists legend. rewrite Hlegend. split; [reflexivity|].
      split; [exact Hhandler|]. split; [exact Hdata|].
      unfold reportDimensions. rewrite Hhandler. reflexivity.
    + intros Hshow. rewrite (Hhidden Hshow). auto.
  - intros Hnone. now rewrite Hnone.
Qed.

End Negotiation.

(** C4.  The legend negotiation is a loop of layout passes.  In a pass the
    chart draws in the area [useLegend] negotiated for the legend dimensions
    it holds, not in the [dimensions] prop; when [showLegend] is true and the
    chart renders, the legend container of the output carries [useLegend]'s
    legend items and reports what it measures to [useLegend]'s
    [setLegendDimensions], so the legend dimensions held after the pass are
    the measured ones; without a legend container they stay as they were.
    The next pass draws in the area negotiated for the measured
    dimensions. *)
Theorem legend_measurements_feed_back {H : Host} (negotiator : Negotiator H)
        (imports : Imports (negotiatorHost H))
        (hooks : Hooks (negotiatorHost H))
        (props : ChartProps (negotiatorHost H)) (st : LocalState)
        (legendDimensions measured : Dimensions)
        (rendered : Rendered (negotiatorHost H)) :
  layoutPass negotiator imports hooks props st legendDimensions
  = Js.Normal (rendered, measured) ->
  let args := useLegendArgs imports hooks props in
  let area := drawableArea negotiator args legendDimensions in
  (forall w,
      element rendered = Some w ->
      drawnWithSide w (Js.Math_min (height area) (width area))
      /\ (p_showLegend props = true ->
          exists legend,
            w_legend w = Some legend
            /\ lc_onDimensionChange legend
               = r_setLegendDimensions
                   (useLegendOf negotiator legendDimensions args)
            /\ lc_data legend = legendItems negotiator args
            /\ measured = measureLegend negotiator legend)
      /\ (p_showLegend props = false ->
          w_legend w = None /\ measured = legendDimensions))
  /\ (element rendered = None -> measured = legendDimensions)
  /\ (forall rendered' measured' w',
        layoutPass negotiator imports hooks props st measured
        = Js.Normal (rendered', measured') ->
        element rendered' = Some w' ->
        let area' := drawableArea negotiator args measured in
        drawnWithSide w' (Js.Math_min (height area') (width area'))
        /\ (r_isLegendMounted (useLegendOf negotiator measured args) = true ->
            p_state props = Success -> emptyState props = false ->
            List.length (groupsOf w') = List.length (points props))).
Proof.
  intros Hpass args area.
  destruct (layoutPass_inv _ _ _ _ _ _ _ _ Hpass) as [Hdrawn Hnull].
  split; [exact Hdrawn|]. split; [exact Hnull|].
  intros rendered' measured' w' Hpass' Helt' area'.
  destruct (layoutPass_inv _ _ _ _ _ _ _ _ Hpass') as [Hdrawn' _].
  split; [exact (proj1 (Hdrawn' w' Helt'))|].
  intros Hmounted Hstate Hempty.
  unfold layoutPass in Hpass'.
  destruct (Chart imports (withLegend negotiator hooks measured) props st)
    as [rendered0|e] eqn:Hchart; simpl in Hpass'; [|discriminate].
  injection Hpass' as <- _.
  pose proof (groupsOf_drawn _ _ _ _ _ _ Hchart Helt' Hstate Hmounted Hempty)
    as Hmap.
  destruct (mapi_from_inv _ _ _ _ Hmap) as [Hlen _].
  rewrite Hlen. apply pieChartData_length.
Qed.

Lemma legend_measurements_feed_back_witness :
  exists rendered measured rendered' measured' w' label svg inner,
    layoutPass MoreExamples.negotiator Examples.imports (Examples.hooks true)
      (Examples.chartOf Examples.twoSeries Success Examples.size200)
      initialState MoreExamples.noLegendYet
    = Js.Normal (rendered, measured)
    /\ height measured == 40 /\ width measured == 60
    /\ layoutPass MoreExamples.negotiator Examples.imports (Examples.hooks true)
         (Examples.chartOf Examples.twoSeries Success Examples.size200)
         initialState measured
       = Js.Normal (rendered', measured')
    /\ element rendered' = Some w'
    /\ w_donut w' = SuccessFragment label svg inner
    /\ svg_width svg == 140
    /\ List.length (groupsOf w') = 2%nat.
Proof.
  pose proof (legend_measurements_feed_back MoreExamples.negotiator
                Examples.imports (Examples.hooks true)
                (Examples.chartOf Examples.twoSeries Success Examples.size200)
                initialState MoreExamples.noLegendYet _ _ eq_refl)
    as (Hfirst & _ & Hsecond).
  destruct (Hfirst _ eq_refl) as (_ & Hshown & _).
  destruct (Hshown eq_refl) as (legend & Hlegend & _ & _ & Hmeasured).
  injection Hlegend as <-.
  destruct (Hsecond _ _ _ eq_refl eq_refl) as [[Hfragment _] Hcount].
  destruct (Hfragment _ _ _ eq_refl) as (_ & Hwidth & _).
  do 8 eexists.
  split; [reflexivity|].
  split; [refine (eq_ind_r (fun m => height m == 40) _ Hmeasured); reflexivity|].
  split; [refine (eq_ind_r (fun m => width m == 60) _ Hmeasured); reflexivity|].
  split; [reflexivity|]. split; [reflexivity|]. split; [reflexivity|].
  split; [refine (eq_ind_r (fun side => side == 140) _ Hwidth); reflexivity|].
  exact (Hcount eq_refl eq_refl eq_refl).
Defined.
